(** * pyTalentMonitor: the Talent solar monitoring API client

    A shallow embedding of
    [custom_components/talent_monitor/pyTalentMonitor/__init__.py]:
    the class [TalentSolarMonitor] with its constructor and its methods
    [get_credentials], [login], [refresh_token], [get_data] and
    [fetch_solar_data], and the entry point [main].

    The methods are state-passing functions over the instance; the aiohttp
    session is a deterministic transport that answers each request from the
    requests received so far and records every call.  Python exceptions are
    explicit results. *)

From Stdlib Require Import ZArith List String Ascii Bool Lia.
From Stdlib Require Import Decimal DecimalString DecimalZ.
From Stdlib Require DecimalPos DecimalFacts.
Import ListNotations.
Open Scope string_scope.

(** ** The Python values the client handles

    Everything the client touches is either one of its own strings or a value
    decoded from a JSON body.  Characters are code points below 256.  A float
    is never computed with, only tested, formatted and serialised, so it is
    identified by its [repr] literal (["230.5"], ["0.0"], ["nan"], ...).  A
    dict keeps insertion order; its keys are strings. *)

Module Py.

#[warnings="-register-all"]
Inductive pyval : Type :=
| PyNone
| PyBool (b : bool)
| PyInt (n : Z)
| PyFloat (repr : string)
| PyStr (s : string)
| PyList (l : list pyval)
| PyDict (d : list (string * pyval)).

Inductive exn : Type :=
| ValueError (msg : string)
| AuthenticationError (msg : string)
| KeyError (key : pyval)
| IndexError
| TypeError
| UnboundLocalError (name : string)
| ContentTypeError.

Inductive outcome (A : Type) : Type :=
| Returned (a : A)
| Raised (e : exn).
Arguments Returned {A} a.
Arguments Raised {A} e.

(** [bool(v)] *)
Definition truthy (v : pyval) : bool :=
  match v with
  | PyNone => false
  | PyBool b => b
  | PyInt n => negb (n =? 0)%Z
  | PyFloat r => negb ((r =? "0.0") || (r =? "-0.0"))
  | PyStr s => negb (s =? EmptyString)
  | PyList l => match l with [] => false | _ => true end
  | PyDict d => match d with [] => false | _ => true end
  end.

Fixpoint dict_get (d : list (string * pyval)) (k : string) : option pyval :=
  match d with
  | [] => None
  | (k', v) :: d' => if k' =? k then Some v else dict_get d' k
  end.

Fixpoint is_substring (k s : string) : bool :=
  prefix k s ||
  match s with
  | EmptyString => false
  | String _ s' => is_substring k s'
  end.

Definition is_str (k : string) (v : pyval) : bool :=
  match v with
  | PyStr s => s =? k
  | _ => false
  end.

(** [k in v] for a string [k] *)
Definition contains (k : string) (v : pyval) : outcome bool :=
  match v with
  | PyDict d => Returned (match dict_get d k with Some _ => true | None => false end)
  | PyList l => Returned (existsb (is_str k) l)
  | PyStr s => Returned (is_substring k s)
  | _ => Raised TypeError
  end.

(** A sequence index: negative indices count from the end. *)
Definition seq_index (len : nat) (i : Z) : option nat :=
  if (0 <=? i)%Z then
    if (i <? Z.of_nat len)%Z then Some (Z.to_nat i) else None
  else
    if (0 <=? Z.of_nat len + i)%Z then Some (Z.to_nat (Z.of_nat len + i)) else None.

Definition int_key (k : pyval) : option Z :=
  match k with
  | PyInt i => Some i
  | PyBool b => Some (if b then 1 else 0)%Z
  | _ => None
  end.

(** [v[k]] *)
Definition getitem (v k : pyval) : outcome pyval :=
  match v with
  | PyDict d =>
      match k with
      | PyStr s =>
          match dict_get d s with
          | Some x => Returned x
          | None => Raised (KeyError k)
          end
      | PyList _ | PyDict _ => Raised TypeError
      | _ => Raised (KeyError k)
      end
  | PyList l =>
      match int_key k with
      | Some i =>
          match seq_index (List.length l) i with
          | Some n =>
              match nth_error l n with
              | Some x => Returned x
              | None => Raised IndexError
              end
          | None => Raised IndexError
          end
      | None => Raised TypeError
      end
  | PyStr s =>
      match int_key k with
      | Some i =>
          match seq_index (String.length s) i with
          | Some n =>
              match String.get n s with
              | Some c => Returned (PyStr (String c EmptyString))
              | None => Raised IndexError
              end
          | None => Raised IndexError
          end
      | None => Raised TypeError
      end
  | _ => Raised TypeError
  end.

(** [len(v)] *)
Definition len (v : pyval) : outcome Z :=
  match v with
  | PyList l => Returned (Z.of_nat (List.length l))
  | PyStr s => Returned (Z.of_nat (String.length s))
  | PyDict d => Returned (Z.of_nat (List.length d))
  | _ => Raised TypeError
  end.

(** *** Formatting: [str], [repr] *)

Definition hex_digit (n : nat) : ascii :=
  nth n (list_ascii_of_string "0123456789abcdef") "0"%char.

Definition hex2 (c : ascii) : string :=
  let n := nat_of_ascii c in
  String (hex_digit (n / 16)) (String (hex_digit (n mod 16)) EmptyString).

Fixpoint join (sep : string) (l : list string) : string :=
  match l with
  | [] => EmptyString
  | [x] => x
  | x :: l' => x ++ sep ++ join sep l'
  end.

Fixpoint has_char (c : ascii) (s : string) : bool :=
  match s with
  | EmptyString => false
  | String a s' => (a =? c)%char || has_char c s'
  end.

Definition squote : ascii := "'"%char.
Definition dquote : ascii := ascii_of_nat 34.
Definition backslash : ascii := "\"%char.

(** One character of [repr(s)]: the quote and the backslash are escaped,
    tab, newline and carriage return have short escapes, the other
    characters that are not printable are written [\xhh]. *)
Definition repr_char (quote c : ascii) : string :=
  let n := nat_of_ascii c in
  if (c =? quote)%char || (c =? backslash)%char then String backslash (String c EmptyString)
  else if (n =? 9)%nat then "\t"
  else if (n =? 10)%nat then "\n"
  else if (n =? 13)%nat then "\r"
  else if (n <? 32)%nat || (n =? 127)%nat then "\x" ++ hex2 c
  else if (n <? 127)%nat then String c EmptyString
  else if (n <=? 160)%nat || (n =? 173)%nat then "\x" ++ hex2 c
  else String c EmptyString.

Fixpoint concat_map (f : ascii -> string) (s : string) : string :=
  match s with
  | EmptyString => EmptyString
  | String c s' => f c ++ concat_map f s'
  end.

Definition repr_str (s : string) : string :=
  let quote := if has_char squote s && negb (has_char dquote s) then dquote else squote in
  String quote (concat_map (repr_char quote) s) ++ String quote EmptyString.

Definition int_str (n : Z) : string := NilZero.string_of_int (Z.to_int n).

(** [repr(v)] *)
Fixpoint py_repr (v : pyval) : string :=
  match v with
  | PyNone => "None"
  | PyBool b => if b then "True" else "False"
  | PyInt n => int_str n
  | PyFloat r => r
  | PyStr s => repr_str s
  | PyList l => "[" ++ join ", " (map py_repr l) ++ "]"
  | PyDict d =>
      "{" ++ join ", " (map (fun kv => repr_str (fst kv) ++ ": " ++ py_repr (snd kv)) d) ++ "}"
  end.

(** [str(v)], which is what an f-string field [{v}] inserts *)
Definition py_str (v : pyval) : string :=
  match v with
  | PyStr s => s
  | _ => py_repr v
  end.

(** *** [json.dumps]

    The encoder of the standard [json] module with its defaults
    ([ensure_ascii], [allow_nan]): with [indent] every item goes on a line of
    its own and items are separated by a bare comma, without it everything is
    on one line. *)

Definition newline : string := String (ascii_of_nat 10) EmptyString.

Definition json_escape_char (c : ascii) : string :=
  let n := nat_of_ascii c in
  if (c =? dquote)%char || (c =? backslash)%char then String backslash (String c EmptyString)
  else if (n =? 8)%nat then "\b"
  else if (n =? 12)%nat then "\f"
  else if (n =? 10)%nat then "\n"
  else if (n =? 13)%nat then "\r"
  else if (n =? 9)%nat then "\t"
  else if (32 <=? n)%nat && (n <=? 126)%nat then String c EmptyString
  else "\u00" ++ hex2 c.

Definition json_string (s : string) : string :=
  String dquote (concat_map json_escape_char s) ++ String dquote EmptyString.

Definition json_float (r : string) : string :=
  if r =? "nan" then "NaN"
  else if r =? "inf" then "Infinity"
  else if r =? "-inf" then "-Infinity"
  else r.

Fixpoint spaces (n : nat) : string :=
  match n with
  | O => EmptyString
  | S n' => String " "%char (spaces n')
  end.

Definition newline_indent (indent : option nat) (level : nat) : string :=
  match indent with
  | Some n => newline ++ spaces (n * level)
  | None => EmptyString
  end.

Definition item_separator (indent : option nat) : string :=
  match indent with
  | Some _ => ","
  | None => ", "
  end.

Fixpoint json_encode (indent : option nat) (level : nat) (v : pyval) : string :=
  match v with
  | PyNone => "null"
  | PyBool b => if b then "true" else "false"
  | PyInt n => int_str n
  | PyFloat r => json_float r
  | PyStr s => json_string s
  | PyList [] => "[]"
  | PyList l =>
      "[" ++ newline_indent indent (S level)
      ++ join (item_separator indent ++ newline_indent indent (S level))
              (map (json_encode indent (S level)) l)
      ++ newline_indent indent level ++ "]"
  | PyDict [] => "{}"
  | PyDict d =>
      "{" ++ newline_indent indent (S level)
      ++ join (item_separator indent ++ newline_indent indent (S level))
              (map (fun kv => json_string (fst kv) ++ ": "
                              ++ json_encode indent (S level) (snd kv)) d)
      ++ newline_indent indent level ++ "}"
  end.

Definition json_dumps (indent : option nat) (v : pyval) : string :=
  json_encode indent 0 v.

(** *** [json.loads]

    The decoder of the standard [json] module with its defaults: strict
    strings, [NaN], [Infinity] and [-Infinity] accepted, a repeated key keeps
    its first place and takes the last value.  A float literal stands for the
    float it denotes, which is exact on the literals [json.dumps] writes; an
    escape [\uXXXX] of a code point above 255 is outside the characters
    modelled and is refused. *)

Definition is_ws (c : ascii) : bool :=
  let n := nat_of_ascii c in
  (n =? 32)%nat || (n =? 9)%nat || (n =? 10)%nat || (n =? 13)%nat.

Fixpoint skip_ws (s : string) : string :=
  match s with
  | String c s' => if is_ws c then skip_ws s' else s
  | EmptyString => s
  end.

Definition is_digit (c : ascii) : bool :=
  let n := nat_of_ascii c in (48 <=? n)%nat && (n <=? 57)%nat.

Definition hex_value (c : ascii) : option nat :=
  let n := nat_of_ascii c in
  if (48 <=? n)%nat && (n <=? 57)%nat then Some (n - 48)
  else if (97 <=? n)%nat && (n <=? 102)%nat then Some (n - 87)
  else if (65 <=? n)%nat && (n <=? 70)%nat then Some (n - 55)
  else None.

Definition hex4 (a b c d : ascii) : option nat :=
  match hex_value a, hex_value b, hex_value c, hex_value d with
  | Some x, Some y, Some z, Some w => Some (((x * 16 + y) * 16 + z) * 16 + w)
  | _, _, _, _ => None
  end.

(** The character a short escape stands for. *)
Definition unescape (e : ascii) : option ascii :=
  let n := nat_of_ascii e in
  if (n =? 34)%nat then Some dquote
  else if (n =? 92)%nat then Some backslash
  else if (n =? 47)%nat then Some "/"%char
  else if (n =? 98)%nat then Some (ascii_of_nat 8)
  else if (n =? 102)%nat then Some (ascii_of_nat 12)
  else if (n =? 110)%nat then Some (ascii_of_nat 10)
  else if (n =? 114)%nat then Some (ascii_of_nat 13)
  else if (n =? 116)%nat then Some (ascii_of_nat 9)
  else None.

Definition cons_char (c : ascii) (r : option (string * string)) : option (string * string) :=
  match r with
  | Some (s, rest) => Some (String c s, rest)
  | None => None
  end.

(** A string, read from after its opening quote. *)
Fixpoint parse_string (s : string) : option (string * string) :=
  match s with
  | EmptyString => None
  | String c s' =>
      if (c =? dquote)%char then Some (EmptyString, s')
      else if (c =? backslash)%char then
        match s' with
        | EmptyString => None
        | String e s'' =>
            if (e =? "u")%char then
              match s'' with
              | String h1 (String h2 (String h3 (String h4 s3))) =>
                  match hex4 h1 h2 h3 h4 with
                  | Some n =>
                      if (n <? 256)%nat then cons_char (ascii_of_nat n) (parse_string s3)
                      else None
                  | None => None
                  end
              | _ => None
              end
            else
              match unescape e with
              | Some c' => cons_char c' (parse_string s'')
              | None => None
              end
        end
      else if (nat_of_ascii c <? 32)%nat then None
      else cons_char c (parse_string s')
  end.

Fixpoint span (p : ascii -> bool) (s : string) : string * string :=
  match s with
  | EmptyString => (EmptyString, EmptyString)
  | String c s' =>
      if p c then let (a, b) := span p s' in (String c a, b)
      else (EmptyString, s)
  end.

Definition is_number_char (c : ascii) : bool :=
  is_digit c || (c =? "-")%char || (c =? "+")%char || (c =? ".")%char
  || (c =? "e")%char || (c =? "E")%char.

Definition strip_minus (s : string) : string :=
  match s with
  | String c s' => if (c =? "-")%char then s' else s
  | EmptyString => s
  end.

Definition strip_sign (s : string) : string :=
  match s with
  | String c s' => if (c =? "-")%char || (c =? "+")%char then s' else s
  | EmptyString => s
  end.

(** The integer part of a number: [0], or digits that do not begin with [0]. *)
Definition int_part (s : string) : option string :=
  match s with
  | String c s' =>
      if (c =? "0")%char then Some s'
      else if is_digit c then Some (snd (span is_digit s'))
      else None
  | EmptyString => None
  end.

Definition digits1 (s : string) : option string :=
  match span is_digit s with
  | (EmptyString, _) => None
  | (_, rest) => Some rest
  end.

Definition frac_part (s : string) : option (bool * string) :=
  match s with
  | String c s' =>
      if (c =? ".")%char then
        match digits1 s' with
        | Some rest => Some (true, rest)
        | None => None
        end
      else Some (false, s)
  | EmptyString => Some (false, s)
  end.

Definition exp_part (s : string) : option bool :=
  match s with
  | String c s' =>
      if (c =? "e")%char || (c =? "E")%char then
        match digits1 (strip_sign s') with
        | Some EmptyString => Some true
        | _ => None
        end
      else None
  | EmptyString => Some false
  end.

(** Whether a token is a JSON number, and then whether it is a float (it
    has a fraction or an exponent) or an integer. *)
Definition classify (tok : string) : option bool :=
  match int_part (strip_minus tok) with
  | Some r1 =>
      match frac_part r1 with
      | Some (f, r2) =>
          match exp_part r2 with
          | Some e => Some (f || e)
          | None => None
          end
      | None => None
      end
  | None => None
  end.

Definition parse_number (s : string) : option (pyval * string) :=
  let (tok, rest) := span is_number_char s in
  match classify tok with
  | Some true => Some (PyFloat tok, rest)
  | Some false =>
      match NilZero.int_of_string tok with
      | Some d => Some (PyInt (Z.of_int d), rest)
      | None => None
      end
  | None => None
  end.

Fixpoint drop (n : nat) (s : string) : string :=
  match n, s with
  | S n', String _ s' => drop n' s'
  | _, _ => s
  end.

Fixpoint starts_with (word s : string) : bool :=
  match word with
  | EmptyString => true
  | String a word' =>
      match s with
      | String b s' => (a =? b)%char && starts_with word' s'
      | EmptyString => false
      end
  end.

Definition literal (word : string) (v : pyval) (s : string) : option (pyval * string) :=
  if starts_with word s then Some (v, drop (String.length word) s) else None.

Definition or_try {A} (a b : option A) : option A :=
  match a with
  | Some _ => a
  | None => b
  end.

Definition parse_atom (s : string) : option (pyval * string) :=
  or_try (literal "null" PyNone s)
  (or_try (literal "true" (PyBool true) s)
  (or_try (literal "false" (PyBool false) s)
  (or_try (literal "NaN" (PyFloat "nan") s)
  (or_try (literal "Infinity" (PyFloat "inf") s)
  (or_try (literal "-Infinity" (PyFloat "-inf") s)
  (parse_number s)))))).

(** [d[k] = v] *)
Fixpoint dict_set (d : list (string * pyval)) (k : string) (v : pyval)
  : list (string * pyval) :=
  match d with
  | [] => [(k, v)]
  | (k', v') :: d' => if k' =? k then (k', v) :: d' else (k', v') :: dict_set d' k v
  end.

Fixpoint parse_value (fuel : nat) (s : string) : option (pyval * string) :=
  match fuel with
  | O => None
  | S fuel =>
      match skip_ws s with
      | EmptyString => None
      | String c s1 =>
          if (c =? dquote)%char then
            match parse_string s1 with
            | Some (x, rest) => Some (PyStr x, rest)
            | None => None
            end
          else if (c =? "[")%char then
            match skip_ws s1 with
            | String c' s2 =>
                if (c' =? "]")%char then Some (PyList [], s2)
                else parse_elements fuel s1 []
            | EmptyString => None
            end
          else if (c =? "{")%char then
            match skip_ws s1 with
            | String c' s2 =>
                if (c' =? "}")%char then Some (PyDict [], s2)
                else parse_members fuel s1 []
            | EmptyString => None
            end
          else parse_atom (String c s1)
      end
  end

with parse_elements (fuel : nat) (s : string) (acc : list pyval)
  : option (pyval * string) :=
  match fuel with
  | O => None
  | S fuel =>
      match parse_value fuel s with
      | Some (v, s1) =>
          match skip_ws s1 with
          | String c s2 =>
              if (c =? ",")%char then parse_elements fuel s2 (v :: acc)
              else if (c =? "]")%char then Some (PyList (List.rev (v :: acc)), s2)
              else None
          | EmptyString => None
          end
      | None => None
      end
  end

with parse_members (fuel : nat) (s : string) (acc : list (string * pyval))
  : option (pyval * string) :=
  match fuel with
  | O => None
  | S fuel =>
      match skip_ws s with
      | String q s1 =>
          if (q =? dquote)%char then
            match parse_string s1 with
            | Some (k, s2) =>
                match skip_ws s2 with
                | String c s3 =>
                    if (c =? ":")%char then
                      match parse_value fuel s3 with
                      | Some (v, s4) =>
                          match skip_ws s4 with
                          | String c' s5 =>
                              if (c' =? ",")%char then
                                parse_members fuel s5 (dict_set acc k v)
                              else if (c' =? "}")%char then
                                Some (PyDict (dict_set acc k v), s5)
                              else None
                          | EmptyString => None
                          end
                      | None => None
                      end
                    else None
                | EmptyString => None
                end
            | None => None
            end
          else None
      | EmptyString => None
      end
  end.

Definition json_loads (s : string) : option pyval :=
  match parse_value (String.length s) s with
  | Some (v, rest) =>
      match skip_ws rest with
      | EmptyString => Some v
      | String _ _ => None
      end
  | None => None
  end.

End Py.
Export Py.

(** ** The HTTP transport

    [session.post] and [session.get] of an aiohttp [ClientSession].  A request
    is answered by [respond] from the requests made before it and the request
    itself, and is appended to [calls], which is what a recording mock
    transport shows afterwards.  [body] is the decoded JSON body; [None] is a
    body that [response.json()] cannot decode, for which it raises (aiohttp
    has [ContentTypeError] for a wrong content type, and the decoder has an
    error of its own; one error stands for both).  The transport always
    answers: connection errors are not modelled. *)

Inductive request : Type :=
| POST (url : string) (json : pyval)
| GET (url : string) (headers : list (string * string)).

Record response : Type := mkResponse {
  status : Z;
  body : option pyval
}.

Record ClientSession : Type := mkSession {
  respond : list request -> request -> response;
  calls : list request
}.

Definition is_post (r : request) : bool :=
  match r with
  | POST _ _ => true
  | GET _ _ => false
  end.

Definition request_url (r : request) : string :=
  match r with
  | POST u _ => u
  | GET u _ => u
  end.

(** ** The client

    The class [TalentSolarMonitor], method by method.  The calls of the
    logger are left out, and with them the [json.dumps] that only feeds the
    debug log: they change neither the instance nor the transport, and on
    values decoded from JSON they do not raise. *)

Definition BASE_URL : string := "https://www.talent-monitoring.com/prod-api".
Definition TIMEZONE : string := "+02:00".

Record TalentSolarMonitor : Type := mkMonitor {
  username : option string;
  password : option string;
  session : ClientSession;
  return_json : bool;
  token : pyval
}.

(** [a or b] on optional strings: [a] when it is a non-empty string. *)
Definition or_else (a b : option string) : option string :=
  match a with
  | Some (String _ _) => a
  | _ => b
  end.

(** The constructor; [environ] is [os.environ.get]. *)
Definition __init__ (environ : string -> option string)
    (username password : option string) (session : ClientSession)
    (return_json : bool) : TalentSolarMonitor :=
  {| username := or_else username (environ "PYTALENT_USERNAME");
     password := or_else password (environ "PYTALENT_PASSWORD");
     session := session;
     return_json := return_json;
     token := PyNone |}.

(** A method body, coroutine or not: it runs on the instance, returns or
    raises, and leaves the instance as it has mutated it. *)
Definition coro (A : Type) : Type :=
  TalentSolarMonitor -> outcome A * TalentSolarMonitor.

Definition ret {A} (a : A) : coro A := fun self => (Returned a, self).

Definition raise {A} (e : exn) : coro A := fun self => (Raised e, self).

Definition bind {A B} (c : coro A) (k : A -> coro B) : coro B :=
  fun self =>
    match c self with
    | (Returned a, self') => k a self'
    | (Raised e, self') => (Raised e, self')
    end.

Notation "x <- c ;; k" := (bind c (fun x => k))
  (at level 61, c at next level, right associativity).
Notation "c ;; k" := (bind c (fun _ => k))
  (at level 61, right associativity).

(** A pure operation that may raise. *)
Definition lift {A} (o : outcome A) : coro A := fun self => (o, self).

(** Reading a field of the instance. *)
Definition self_username : coro (option string) := fun self => (Returned (username self), self).
Definition self_password : coro (option string) := fun self => (Returned (password self), self).
Definition self_return_json : coro bool := fun self => (Returned (return_json self), self).
Definition self_token : coro pyval := fun self => (Returned (token self), self).

Definition set_token (t : pyval) : coro unit :=
  fun self =>
    (Returned tt,
     {| username := username self; password := password self;
        session := session self; return_json := return_json self;
        token := t |}).

Definition record_call (r : request) : coro response :=
  fun self =>
    let s := session self in
    (Returned (respond s (calls s) r),
     {| username := username self; password := password self;
        session := {| respond := respond s; calls := calls s ++ [r] |};
        return_json := return_json self; token := token self |}).

Definition session_post (url : string) (json : pyval) : coro response :=
  record_call (POST url json).

Definition session_get (url : string) (headers : list (string * string)) : coro response :=
  record_call (GET url headers).

(** [await c] runs the coroutine [c] to completion. *)
Definition await {A} (c : coro A) : coro A := c.

(** A call of an [async def] method whose result is not awaited only
    creates the coroutine object: nothing of its body runs. *)
Definition unawaited {A} (c : coro A) : coro unit := ret tt.

(** [await response.json()] *)
Definition response_json (r : response) : coro pyval :=
  match body r with
  | Some v => ret v
  | None => raise ContentTypeError
  end.

Definition opt_str (o : option string) : pyval :=
  match o with
  | Some s => PyStr s
  | None => PyNone
  end.

Definition falsy_str (o : option string) : bool := negb (truthy (opt_str o)).

Definition get_credentials : coro unit :=
  username <- self_username ;;
  password <- self_password ;;
  if falsy_str username || falsy_str password then
    raise (ValueError
      "Credentials not provided via command line arguments or environment variables.")
  else ret tt.

Definition login : coro unit :=
  username <- self_username ;;
  password <- self_password ;;
  let login_data := PyDict [("username", opt_str username); ("password", opt_str password)] in
  response <- await (session_post (BASE_URL ++ "/login") login_data) ;;
  response_data <- await (response_json response) ;;
  has_token <- lift (contains "token" response_data) ;;
  if has_token then
    t <- lift (getitem response_data (PyStr "token")) ;;
    set_token t
  else
    raise (AuthenticationError "Authentication failed").

Definition refresh_token : coro unit :=
  unawaited login.

Definition bearer (t : pyval) : string := "Bearer " ++ py_str t.

Definition get_data (endpoint : string) : coro pyval :=
  token <- self_token ;;
  (if negb (truthy token) then unawaited login else ret tt) ;;
  token <- self_token ;;
  let headers := [("Authorization", bearer token)] in
  response <- await (session_get (BASE_URL ++ "/" ++ endpoint) headers) ;;
  response <-
    (if (status response =? 401)%Z then
       unawaited refresh_token ;;
       token <- self_token ;;
       let headers := [("Authorization", bearer token)] in
       await (session_get (BASE_URL ++ "/" ++ endpoint) headers)
     else ret response) ;;
  if (status response =? 200)%Z then
    await (response_json response)
  else
    ret PyNone.

(** Reading a local variable that no executed assignment has bound. *)
Definition local (name : string) (v : option pyval) : coro pyval :=
  match v with
  | Some x => ret x
  | None => raise (UnboundLocalError name)
  end.

Definition fetch_solar_data : coro pyval :=
  get_credentials ;;
  await login ;;
  data <- await (get_data "system/station/list") ;;
  has_rows <-
    (if truthy data then
       has <- lift (contains "rows" data) ;;
       if has then
         rows <- lift (getitem data (PyStr "rows")) ;;
         n <- lift (len rows) ;;
         ret (0 <? n)%Z
       else ret false
     else ret false) ;;
  if has_rows then
    rows <- lift (getitem data (PyStr "rows")) ;;
    first_station <- lift (getitem rows (PyInt 0)) ;;
    status <- lift (getitem first_station (PyStr "status")) ;;
    stationName <- lift (getitem first_station (PyStr "stationName")) ;;
    powerStationGuid <- lift (getitem first_station (PyStr "powerStationGuid")) ;;
    data <- await (get_data
      ("system/station/getPowerStationByGuid?powerStationGuid="
       ++ py_str powerStationGuid ++ "&timezone=" ++ TIMEZONE)) ;;
    energy <-
      (if truthy data then
         power_data <- lift (getitem data (PyStr "data")) ;;
         totalActivePower <- lift (getitem power_data (PyStr "totalActivePower")) ;;
         dayEnergy <- lift (getitem power_data (PyStr "dayEnergy")) ;;
         monthEnergy <- lift (getitem power_data (PyStr "monthEnergy")) ;;
         yearEnergy <- lift (getitem power_data (PyStr "yearEnergy")) ;;
         ret (Some totalActivePower, Some dayEnergy, Some monthEnergy, Some yearEnergy)
       else ret (None, None, None, None)) ;;
    let '(totalActivePower, dayEnergy, monthEnergy, yearEnergy) := energy in
    data <- await (get_data "tools/device/selectDeviceInverter") ;;
    deviceGuid <-
      (if truthy data then
         rows <- lift (getitem data (PyStr "rows")) ;;
         row <- lift (getitem rows (PyInt 0)) ;;
         guid <- lift (getitem row (PyStr "deviceGuid")) ;;
         ret (Some guid)
       else ret None) ;;
    guid <- local "deviceGuid" deviceGuid ;;
    data <- await (get_data
      ("tools/device/selectDeviceInverterInfo?deviceGuid=" ++ py_str guid)) ;;
    panels <-
      (if truthy data then
         d <- lift (getitem data (PyStr "data")) ;;
         pv <- lift (getitem d (PyStr "pv")) ;;
         pv0 <- lift (getitem pv (PyInt 0)) ;;
         pv1Voltage <- lift (getitem pv0 (PyStr "voltage")) ;;
         pv0 <- lift (getitem pv (PyInt 0)) ;;
         pv1Current <- lift (getitem pv0 (PyStr "current")) ;;
         pv0 <- lift (getitem pv (PyInt 0)) ;;
         pv1Power <- lift (getitem pv0 (PyStr "power")) ;;
         pv1 <- lift (getitem pv (PyInt 1)) ;;
         pv2Voltage <- lift (getitem pv1 (PyStr "voltage")) ;;
         pv1 <- lift (getitem pv (PyInt 1)) ;;
         pv2Current <- lift (getitem pv1 (PyStr "current")) ;;
         pv1 <- lift (getitem pv (PyInt 1)) ;;
         pv2Power <- lift (getitem pv1 (PyStr "power")) ;;
         ret (Some pv1Voltage, Some pv1Current, Some pv1Power,
              Some pv2Voltage, Some pv2Current, Some pv2Power)
       else ret (None, None, None, None, None, None)) ;;
    let '(pv1Voltage, pv1Current, pv1Power, pv2Voltage, pv2Current, pv2Power) := panels in
    totalActivePower <- local "totalActivePower" totalActivePower ;;
    dayEnergy <- local "dayEnergy" dayEnergy ;;
    monthEnergy <- local "monthEnergy" monthEnergy ;;
    yearEnergy <- local "yearEnergy" yearEnergy ;;
    pv1Voltage <- local "pv1Voltage" pv1Voltage ;;
    pv1Current <- local "pv1Current" pv1Current ;;
    pv1Power <- local "pv1Power" pv1Power ;;
    pv2Voltage <- local "pv2Voltage" pv2Voltage ;;
    pv2Current <- local "pv2Current" pv2Current ;;
    pv2Power <- local "pv2Power" pv2Power ;;
    let result := PyDict [
      ("Status", status);
      ("StationName", stationName);
      ("TotalActivePower(W)", totalActivePower);
      ("DailyEnergy(Wh)", dayEnergy);
      ("MonthlyEnergy(Wh)", monthEnergy);
      ("YearlyEnergy(Wh)", yearEnergy);
      ("Panel1Voltage(V)", pv1Voltage);
      ("Panel1Current(A)", pv1Current);
      ("Panel1Power(W)", pv1Power);
      ("Panel2Voltage(V)", pv2Voltage);
      ("Panel2Current(A)", pv2Current);
      ("Panel2Power(W)", pv2Power)
    ] in
    return_json <- self_return_json ;;
    if return_json then
      ret (PyStr (json_dumps (Some 4) result))
    else
      ret PyNone
  else
    ret PyNone.

(** ** Notions the statements use *)

Definition run {A} (c : coro A) (s : TalentSolarMonitor) : outcome A := fst (c s).
Definition after {A} (c : coro A) (s : TalentSolarMonitor) : TalentSolarMonitor := snd (c s).
Definition recorded (s : TalentSolarMonitor) : list request := calls (session s).

Definition is_get (r : request) : bool := negb (is_post r).

Definition unset_or_empty (o : option string) : Prop := o = None \/ o = Some EmptyString.

Definition credentials_error : exn :=
  ValueError "Credentials not provided via command line arguments or environment variables.".

(** The errors Python raises by itself when a value has not the shape the
    code reads it in: a list too short, a field that is missing, a value that
    cannot be indexed.  (The spec calls them DataShapeError.) *)
Definition data_shape_error (e : exn) : bool :=
  match e with
  | IndexError | KeyError _ | TypeError => true
  | _ => false
  end.

(** [v] is a JSON object whose field [k] is [x]. *)
Definition field (v : pyval) (k : string) : option pyval :=
  match v with
  | PyDict d => dict_get d k
  | _ => None
  end.

(** The instance after the transport has recorded [new]. *)
Definition with_calls (s : TalentSolarMonitor) (new : list request) : TalentSolarMonitor :=
  {| username := username s; password := password s;
     session := {| respond := respond (session s); calls := calls (session s) ++ new |};
     return_json := return_json s; token := token s |}.

Definition with_token (s : TalentSolarMonitor) (t : pyval) : TalentSolarMonitor :=
  {| username := username s; password := password s; session := session s;
     return_json := return_json s; token := t |}.

(** What [get_data] makes of the response it ends up with. *)
Definition data_of (r : response) : outcome pyval :=
  if (status r =? 200)%Z then
    match body r with
    | Some v => Returned v
    | None => Raised ContentTypeError
    end
  else Returned PyNone.

(** The requests the client makes. *)
Definition get_request (endpoint : string) (t : pyval) : request :=
  GET (BASE_URL ++ "/" ++ endpoint) [("Authorization", bearer t)].

Definition login_request (s : TalentSolarMonitor) : request :=
  POST (BASE_URL ++ "/login")
       (PyDict [("username", opt_str (username s)); ("password", opt_str (password s))]).

(** The endpoints that [fetch_solar_data] builds from a GUID it has read. *)
Definition station_detail_endpoint (guid : pyval) : string :=
  "system/station/getPowerStationByGuid?powerStationGuid="
  ++ py_str guid ++ "&timezone=" ++ TIMEZONE.

Definition inverter_detail_endpoint (guid : pyval) : string :=
  "tools/device/selectDeviceInverterInfo?deviceGuid=" ++ py_str guid.

(** The transport answers every GET of [endpoint] that carries the token [t]
    with status 200 and the body [v]. *)
Definition serves (s : TalentSolarMonitor) (endpoint : string) (t v : pyval) : Prop :=
  forall hist,
    respond (session s) hist (get_request endpoint t) = mkResponse 200 (Some v).

(** [frame s s']: from [s] to [s'] only the token may have changed and the
    transport has only recorded further calls. *)
Definition frame (s s' : TalentSolarMonitor) : Prop :=
  username s' = username s /\
  password s' = password s /\
  return_json s' = return_json s /\
  respond (session s') = respond (session s) /\
  exists new, calls (session s') = (calls (session s) ++ new)%list.

(** The transports answer alike on the requests [new] made after the calls
    each has already recorded. *)
Definition agree (s1 s2 : TalentSolarMonitor) (new : list request) : Prop :=
  forall pre r rest, new = (pre ++ r :: rest)%list ->
    respond (session s1) (calls (session s1) ++ pre)%list r
    = respond (session s2) (calls (session s2) ++ pre)%list r.

(** Two instances that differ at most in their transport. *)
Definition alike (s1 s2 : TalentSolarMonitor) : Prop :=
  username s1 = username s2 /\
  password s1 = password s2 /\
  return_json s1 = return_json s2 /\
  token s1 = token s2.

(** [regular c]: [c] respects the frame, and its run is determined by the
    instance and by the responses to the requests it makes. *)
Definition regular {A} (c : coro A) : Prop :=
  (forall s, frame s (snd (c s))) /\
  (forall s1 s2 new,
     alike s1 s2 ->
     calls (session (snd (c s1))) = (calls (session s1) ++ new)%list ->
     agree s1 s2 new ->
     fst (c s2) = fst (c s1) /\
     alike (snd (c s1)) (snd (c s2)) /\
     calls (session (snd (c s2))) = (calls (session s2) ++ new)%list).

(** The methods of the class, and an instance's life as the calls made on it. *)
Inductive method : Type :=
| GetCredentials
| Login
| RefreshToken
| GetData (endpoint : string)
| FetchSolarData.

Definition call (s : TalentSolarMonitor) (m : method) : TalentSolarMonitor :=
  match m with
  | GetCredentials => after get_credentials s
  | Login => after login s
  | RefreshToken => after refresh_token s
  | GetData endpoint => after (get_data endpoint) s
  | FetchSolarData => after fetch_solar_data s
  end.

(** *** JSON values *)

Fixpoint all_chars (p : ascii -> bool) (s : string) : bool :=
  match s with
  | EmptyString => true
  | String c s' => p c && all_chars p s'
  end.

(** The literal of a float: [nan], [inf], [-inf], or a JSON number with a
    fraction or an exponent. *)
Definition float_literal (r : string) : bool :=
  (r =? "nan") || (r =? "inf") || (r =? "-inf")
  || (all_chars is_number_char r && match classify r with Some true => true | _ => false end).

Fixpoint distinct (keys : list string) : bool :=
  match keys with
  | [] => true
  | k :: keys' => negb (existsb (String.eqb k) keys') && distinct keys'
  end.

(** The values that a JSON text decodes to: the floats are float literals
    and no dict has a key twice. *)
Fixpoint json_value (v : pyval) : bool :=
  match v with
  | PyFloat r => float_literal r
  | PyList l => forallb json_value l
  | PyDict d => distinct (map fst d) && forallb (fun kv => json_value (snd kv)) d
  | _ => true
  end.

(** [s] is empty or begins with a character that [p] rejects. *)
Definition stops (p : ascii -> bool) (s : string) : Prop :=
  match s with
  | EmptyString => True
  | String c _ => p c = false
  end.

(** The shape of a decimal integer: an optional minus, then [0] or digits
    that begin with another digit than [0]. *)
Inductive int_shape : string -> Prop :=
| shape_zero : int_shape "0"
| shape_pos c ds :
    is_digit c = true -> (c =? "0")%char = false -> all_chars is_digit ds = true ->
    int_shape (String c ds)
| shape_neg c ds :
    is_digit c = true -> (c =? "0")%char = false -> all_chars is_digit ds = true ->
    int_shape (String "-" (String c ds)).

(** A number token begins with a digit, or with a minus and a digit. *)
Definition number_head (tok : string) : bool :=
  match tok with
  | String c t =>
      is_digit c
      || ((c =? "-")%char && match t with String c' _ => is_digit c' | EmptyString => false end)
  | EmptyString => false
  end.

(** An encoded value begins with a character that is neither white space
    nor a closing bracket. *)
Definition value_head (s : string) : Prop :=
  match s with
  | String c _ =>
      is_ws c = false /\ (c =? "]")%char = false /\ (c =? "}")%char = false
  | EmptyString => False
  end.

(** What the decoder needs of fuel to read a value. *)
Fixpoint cost (v : pyval) : nat :=
  match v with
  | PyList l => S (fold_right (fun x n => S (cost x + n)) 0 l)
  | PyDict d => S (fold_right (fun kv n => S (cost (snd kv) + n)) 0 d)
  | _ => 1
  end.

(** The decoder reads [v] back from its encoding, whatever follows it. *)
Definition reads_back (v : pyval) : Prop :=
  json_value v = true ->
  forall indent level fuel rest,
    cost v <= fuel -> stops is_number_char rest ->
    parse_value fuel (json_encode indent level v ++ rest) = Some (v, rest).

Definition json_member (indent : option nat) (level : nat) (kv : string * pyval) : string :=
  json_string (fst kv) ++ ": " ++ json_encode indent level (snd kv).

(** ** Mock transports and sample data *)

Module Mock.

Definition not_found : response := mkResponse 404 None.

Fixpoint route (table : list (string * response)) (url : string) : response :=
  match table with
  | [] => not_found
  | (u, r) :: table' => if u =? url then r else route table' url
  end.

(** A transport keyed by URL. *)
Definition routes (table : list (string * response)) : list request -> request -> response :=
  fun _ r => route table (request_url r).

(** A transport that plays a script: the n-th request gets the n-th response. *)
Definition scripted (script : list response) : list request -> request -> response :=
  fun hist _ => nth (List.length hist) script not_found.

Definition ok (v : pyval) : response := mkResponse 200 (Some v).

Definition unauthorized : response :=
  mkResponse 401 (Some (PyDict [("msg", PyStr "expired"); ("code", PyInt 401)])).

Definition server_error : response := mkResponse 500 None.

Definition login_body : pyval :=
  PyDict [("code", PyInt 200); ("token", PyStr "tok-1")].

Definition station_list : pyval :=
  PyDict [("total", PyInt 1);
          ("rows", PyList [PyDict [("status", PyStr "ready");
                                   ("stationName", PyStr "Roof");
                                   ("powerStationGuid", PyStr "S-17")]])].

Definition no_stations : pyval :=
  PyDict [("total", PyInt 0); ("rows", PyList [])].

Definition station_detail : pyval :=
  PyDict [("data", PyDict [("totalActivePower", PyFloat "512.5");
                           ("dayEnergy", PyFloat "1.2");
                           ("monthEnergy", PyFloat "30.5");
                           ("yearEnergy", PyInt 400)])].

Definition inverter_list : pyval :=
  PyDict [("rows", PyList [PyDict [("deviceGuid", PyStr "D-4")]])].

Definition panel (v c p : string) : pyval :=
  PyDict [("voltage", PyFloat v); ("current", PyFloat c); ("power", PyFloat p)].

Definition inverter_detail (pv : list pyval) : pyval :=
  PyDict [("data", PyDict [("pv", PyList pv)])].

Definition two_panels : list pyval :=
  [panel "35.1" "7.2" "252.7"; panel "34.8" "7.4" "257.5"].

Definition station_detail_url : string :=
  BASE_URL ++ "/system/station/getPowerStationByGuid?powerStationGuid=S-17&timezone=+02:00".

Definition inverter_detail_url : string :=
  BASE_URL ++ "/tools/device/selectDeviceInverterInfo?deviceGuid=D-4".

(** The service when everything works, with the given panels. *)
Definition service (pv : list pyval) : list (string * response) :=
  [ (BASE_URL ++ "/login", ok login_body);
    (BASE_URL ++ "/system/station/list", ok station_list);
    (station_detail_url, ok station_detail);
    (BASE_URL ++ "/tools/device/selectDeviceInverter", ok inverter_list);
    (inverter_detail_url, ok (inverter_detail pv)) ].

(** [table] with the response of one URL replaced. *)
Fixpoint override (table : list (string * response)) (url : string) (r : response)
  : list (string * response) :=
  match table with
  | [] => [(url, r)]
  | (u, r') :: table' =>
      if u =? url then (u, r) :: table' else (u, r') :: override table' url r
  end.

Definition monitor (respond : list request -> request -> response) (json : bool)
  : TalentSolarMonitor :=
  __init__ (fun _ => None) (Some "alice") (Some "secret") (mkSession respond []) json.

(** The client of a service that works. *)
Definition client : TalentSolarMonitor := monitor (routes (service two_panels)) true.

(** A client that was given no password, neither as an argument nor in the
    environment. *)
Definition client_without_password : TalentSolarMonitor :=
  __init__ (fun _ => None) (Some "alice") None
       (mkSession (routes (service two_panels)) []) true.

(** A client that holds a token the service no longer accepts. *)
Definition client_rejected : TalentSolarMonitor :=
  {| username := Some "alice"; password := Some "secret";
     session := mkSession (fun _ _ => unauthorized) [];
     return_json := true; token := PyStr "tok-0" |}.

(** The report of the sample service. *)
Definition sample_report : list (string * pyval) :=
  [ ("Status", PyStr "ready");
    ("StationName", PyStr "Roof");
    ("TotalActivePower(W)", PyFloat "512.5");
    ("DailyEnergy(Wh)", PyFloat "1.2");
    ("MonthlyEnergy(Wh)", PyFloat "30.5");
    ("YearlyEnergy(Wh)", PyInt 400);
    ("Panel1Voltage(V)", PyFloat "35.1");
    ("Panel1Current(A)", PyFloat "7.2");
    ("Panel1Power(W)", PyFloat "252.7");
    ("Panel2Voltage(V)", PyFloat "34.8");
    ("Panel2Current(A)", PyFloat "7.4");
    ("Panel2Power(W)", PyFloat "257.5") ].

(** A client of the same service on a transport that plays a script. *)
Definition scripted_client : TalentSolarMonitor :=
  monitor
    (scripted [ok login_body; ok station_list; ok station_detail; ok inverter_list;
               ok (inverter_detail two_panels)])
    true.

(** Clients of a service that fails softly at one stage. *)
Definition client_without_detail : TalentSolarMonitor :=
  monitor (routes (override (service two_panels) station_detail_url server_error)) true.

Definition client_without_inverters : TalentSolarMonitor :=
  monitor (routes (override (service two_panels)
                     (BASE_URL ++ "/tools/device/selectDeviceInverter") server_error)) true.

(** A client of a service that has no station. *)
Definition client_without_stations : TalentSolarMonitor :=
  monitor (routes (override (service two_panels)
                     (BASE_URL ++ "/system/station/list") (ok no_stations))) true.

(** A client of a service whose inverter has one panel. *)
Definition client_one_panel : TalentSolarMonitor :=
  monitor (routes (service [panel "35.1" "7.2" "252.7"])) true.

End Mock.

(** ** The entry point

    [main] opens a session of its own, builds the client on it and awaits one
    fetch.  What can be seen of a run: whether it ends normally or in an
    error, the records it hands to the logger at level INFO (the only call of
    [_LOGGER.info] in the file is the one in [main]), and the requests made
    on the session.  [network] is what the fresh session talks to; leaving
    the [async with] block closes the session on every path, which changes
    none of the three. *)

Record main_run : Type := mkRun {
  main_outcome : outcome unit;
  main_info : list string;
  main_requests : list request
}.

Definition main (environ : string -> option string)
    (network : list request -> request -> response)
    (username password : option string) (return_json : bool) : main_run :=
  let session := mkSession network [] in
  let talent_monitor := __init__ environ username password session return_json in
  match fetch_solar_data talent_monitor with
  | (Returned result, talent_monitor') =>
      {| main_outcome := Returned tt;
         main_info :=
           if truthy result then ["Solar data received: " ++ py_str result] else [];
         main_requests := recorded talent_monitor' |}
  | (Raised e, talent_monitor') =>
      {| main_outcome := Raised e;
         main_info := [];
         main_requests := recorded talent_monitor' |}
  end.

(** ** Notions of the further properties *)

(** A credential counts as given when it is a non-empty string. *)
Definition given (o : option string) : bool := truthy (opt_str o).

(** The instance with the other output mode. *)
Definition with_json (s : TalentSolarMonitor) (b : bool) : TalentSolarMonitor :=
  {| username := username s; password := password s; session := session s;
     return_json := b; token := token s |}.

(** The transport answers every GET of [endpoint] that carries the token [t]
    with the response [r]. *)
Definition answers (s : TalentSolarMonitor) (endpoint : string) (t : pyval)
    (r : response) : Prop :=
  forall hist, respond (session s) hist (get_request endpoint t) = r.

(** [get_data] makes of the response [r] a value that counts as false:
    [None] for a status other than 200, or a body such as [null], [{}],
    [[]], [0], an empty string or [false]. *)
Definition no_data (r : response) : bool :=
  match data_of r with
  | Returned d => negb (truthy d)
  | Raised _ => false
  end.

(** How often [get_data] sends its request when every answer is [r]. *)
Definition tries (r : response) : nat :=
  if (status r =? 401)%Z then 2 else 1.

Definition raised_of {A} (o : outcome A) : option exn :=
  match o with
  | Raised e => Some e
  | Returned _ => None
  end.

(** The keys of the report, in the order the code writes them. *)
Definition report_keys : list string :=
  [ "Status"; "StationName"; "TotalActivePower(W)"; "DailyEnergy(Wh)";
    "MonthlyEnergy(Wh)"; "YearlyEnergy(Wh)"; "Panel1Voltage(V)";
    "Panel1Current(A)"; "Panel1Power(W)"; "Panel2Voltage(V)";
    "Panel2Current(A)"; "Panel2Power(W)" ].

(** The first of the three fields read from a station row that the row has
    not. *)
Definition first_missing (d : list (string * pyval)) : option string :=
  find (fun k => match dict_get d k with None => true | Some _ => false end)
       ["status"; "stationName"; "powerStationGuid"].

(** [gets_at_most n c]: all that [c] does to the instance is to have the
    transport record GET requests, [n] of them at most. *)
Definition gets_at_most {A} (n : nat) (c : coro A) : Prop :=
  forall s, exists gets,
    snd (c s) = with_calls s gets /\
    forallb is_get gets = true /\
    List.length gets <= n.

(** What [fetch_solar_data] may return in the mode [json]. *)
Definition is_report (json : bool) (v : pyval) : Prop :=
  v = PyNone \/
  (json = true /\
   exists d, map fst d = report_keys /\ v = PyStr (json_dumps (Some 4) (PyDict d))).

Definition reports (c : coro pyval) : Prop :=
  forall s v, fst (c s) = Returned v -> is_report (return_json s) v.

(** [mode_blind c]: [c] runs the same in both output modes. *)
Definition mode_blind {A} (c : coro A) : Prop :=
  forall s b, c (with_json s b) = (fst (c s), with_json (snd (c s)) b).

(** [mode_bound c]: the output mode changes at most the value that [c]
    returns. *)
Definition mode_bound {A} (c : coro A) : Prop :=
  forall s b,
    snd (c (with_json s b)) = with_json (snd (c s)) b /\
    raised_of (fst (c (with_json s b))) = raised_of (fst (c s)).

(** ** Further sample services *)

Module Sample.

Import Mock.

(** The client of the working service in log mode. *)
Definition client_log_mode : TalentSolarMonitor :=
  monitor (routes (service two_panels)) false.

(** A client of a service whose inverter has three panels. *)
Definition three_panels : list pyval :=
  two_panels ++ [panel "33.9" "7.0" "237.3"].

Definition client_three_panels : TalentSolarMonitor :=
  monitor (routes (service three_panels)) true.

(** A service that refuses the credentials: the login is answered with an
    object that has no token. *)
Definition refusal : pyval :=
  PyDict [("code", PyInt 500); ("msg", PyStr "wrong user or password")].

Definition client_refused : TalentSolarMonitor :=
  monitor (routes (override (service two_panels) (BASE_URL ++ "/login") (ok refusal))) true.

(** A service whose login page is not JSON, and one that answers [null]. *)
Definition client_login_html : TalentSolarMonitor :=
  monitor (routes (override (service two_panels) (BASE_URL ++ "/login")
                     (mkResponse 502 None))) true.

Definition client_login_null : TalentSolarMonitor :=
  monitor (routes (override (service two_panels) (BASE_URL ++ "/login") (ok PyNone))) true.

(** A service that accepts the login and then rejects every token. *)
Definition client_never_authorized : TalentSolarMonitor :=
  monitor (fun _ r => if is_post r then ok login_body else unauthorized) true.

(** A service whose station list is down. *)
Definition client_list_down : TalentSolarMonitor :=
  monitor (routes (override (service two_panels)
                     (BASE_URL ++ "/system/station/list") server_error)) true.

(** A service whose first station has no name. *)
Definition nameless_station : list (string * pyval) :=
  [("status", PyStr "ready"); ("powerStationGuid", PyStr "S-17")].

Definition client_nameless_station : TalentSolarMonitor :=
  monitor (routes (override (service two_panels) (BASE_URL ++ "/system/station/list")
                     (ok (PyDict [("rows", PyList [PyDict nameless_station])])))) true.

(** A service that has a station and no inverter. *)
Definition client_no_inverter_rows : TalentSolarMonitor :=
  monitor (routes (override (service two_panels)
                     (BASE_URL ++ "/tools/device/selectDeviceInverter")
                     (ok (PyDict [("rows", PyList [])])))) true.

(** A service whose inverter detail is down. *)
Definition client_without_inverter_detail : TalentSolarMonitor :=
  monitor (routes (override (service two_panels) inverter_detail_url server_error)) true.

(** A service that has let the token [tok-0] expire: it answers the login
    with the token [tok-1], serves the GETs that carry [tok-1], and answers
    every other GET with 401. *)
Definition renewing (table : list (string * response)) : list request -> request -> response :=
  fun _ r =>
    match r with
    | POST _ _ => ok login_body
    | GET url headers =>
        if existsb (fun h => snd h =? "Bearer tok-1") headers then route table url
        else unauthorized
    end.

(** A client of that service that still holds [tok-0]. *)
Definition client_expired : TalentSolarMonitor :=
  {| username := Some "alice"; password := Some "secret";
     session := mkSession (renewing (service two_panels)) [];
     return_json := true; token := PyStr "tok-0" |}.

(** An instance that holds a token, on a transport that answers every
    request with [r]. *)
Definition holder (r : response) : TalentSolarMonitor :=
  {| username := Some "alice"; password := Some "secret";
     session := mkSession (fun _ _ => r) [];
     return_json := true; token := PyStr "tok-1" |}.

End Sample.

(** * Proofs *)

(** ** [json.loads] reads back what [json.dumps] writes *)

Lemma string_app_assoc (a b c : string) : (a ++ b) ++ c = a ++ (b ++ c).
Proof. induction a as [|x a IH]; cbn; [reflexivity|now rewrite IH]. Qed.

Lemma string_app_length (a b : string) :
  String.length (a ++ b) = String.length a + String.length b.
Proof. induction a as [|x a IH]; cbn; [reflexivity|now rewrite IH]. Qed.

Lemma span_app p a b :
  all_chars p a = true -> stops p b -> span p (a ++ b) = (a, b).
Proof.
  induction a as [|c a IH]; cbn; intros Ha Hb.
  - destruct b as [|c b]; [reflexivity|]. cbn in *. now rewrite Hb.
  - apply andb_true_iff in Ha as [Hc Ha]. now rewrite Hc, IH.
Qed.

Lemma span_all p a : all_chars p a = true -> span p a = (a, EmptyString).
Proof.
  induction a as [|c a IH]; cbn; [reflexivity|].
  intro Ha. apply andb_true_iff in Ha as [Hc Ha]. now rewrite Hc, IH.
Qed.

Lemma skip_ws_app w s : all_chars is_ws w = true -> skip_ws (w ++ s) = skip_ws s.
Proof.
  induction w as [|c w IH]; cbn; [reflexivity|].
  intro H. apply andb_true_iff in H as [Hc Hw]. now rewrite Hc, IH.
Qed.

Lemma all_ws_spaces n : all_chars is_ws (spaces n) = true.
Proof. induction n; cbn; auto. Qed.

Lemma all_ws_newline_indent indent level :
  all_chars is_ws (newline_indent indent level) = true.
Proof.
  destruct indent as [n|]; cbn; [|reflexivity]. apply all_ws_spaces.
Qed.

(** *** Strings *)

Lemma parse_string_escape c tail :
  parse_string (json_escape_char c ++ tail) = cons_char c (parse_string tail).
Proof.
  destruct c as [[] [] [] [] [] [] [] []]; reflexivity.
Qed.

Lemma parse_string_json s rest :
  parse_string (concat_map json_escape_char s ++ String dquote rest) = Some (s, rest).
Proof.
  induction s as [|c s IH]; cbn [concat_map].
  - reflexivity.
  - now rewrite string_app_assoc, parse_string_escape, IH.
Qed.

Lemma parse_string_json_string s rest :
  exists body,
    json_string s ++ rest = String dquote body /\ parse_string body = Some (s, rest).
Proof.
  exists (concat_map json_escape_char s ++ String dquote rest). split.
  - unfold json_string. cbn. now rewrite string_app_assoc.
  - apply parse_string_json.
Qed.

(** *** Numbers *)

Lemma uint_digits d : all_chars is_digit (NilEmpty.string_of_uint d) = true.
Proof. induction d; cbn; auto. Qed.

Lemma to_uint_head p :
  exists c ds,
    NilZero.string_of_uint (Pos.to_uint p) = String c ds /\
    is_digit c = true /\ (c =? "0")%char = false /\ all_chars is_digit ds = true.
Proof.
  pose proof (DecimalPos.Unsigned.to_uint_nonzero p) as Hnz.
  pose proof (DecimalPos.Unsigned.to_uint_nonnil p) as Hnn.
  assert (Hnorm : unorm (Pos.to_uint p) = Pos.to_uint p).
  { pose proof (DecimalZ.to_of (Z.to_int (Z.pos p))) as H.
    rewrite DecimalZ.of_to in H. cbn in H. now injection H. }
  pose proof (DecimalFacts.nzhead_nonzero (Pos.to_uint p)) as Hhead.
  unfold unorm in Hnorm.
  destruct (Pos.to_uint p) as [|d|d|d|d|d|d|d|d|d|d] eqn:E; try contradiction;
    cbn [NilZero.string_of_uint NilEmpty.string_of_uint].
  1: { exfalso. destruct (nzhead (D0 d)) eqn:E'; try discriminate.
       - apply Hnz. symmetry. exact Hnorm.
       - now apply (Hhead u). }
  all: eexists _, _; repeat split; apply uint_digits.
Qed.

Lemma digit_is_number_char c : is_digit c = true -> is_number_char c = true.
Proof. unfold is_number_char. now intros ->. Qed.

Lemma all_digits_number_chars s :
  all_chars is_digit s = true -> all_chars is_number_char s = true.
Proof.
  induction s as [|c s IH]; cbn; [reflexivity|].
  intro H. apply andb_true_iff in H as [Hc Hs].
  now rewrite (digit_is_number_char c Hc), IH.
Qed.

(** A character that [p] accepts is not one that [p] rejects. *)
Lemma char_differs (p : ascii -> bool) c x :
  p c = true -> p x = false -> (c =? x)%char = false.
Proof.
  intros Hc Hx. destruct (c =? x)%char eqn:E; [|reflexivity].
  apply Ascii.eqb_eq in E. congruence.
Qed.

Lemma int_str_shape n : int_shape (int_str n).
Proof.
  unfold int_str. destruct n as [|p|p]; cbn [Z.to_int NilZero.string_of_int].
  - constructor.
  - destruct (to_uint_head p) as (c & ds & -> & ? & ? & ?). now constructor.
  - destruct (to_uint_head p) as (c & ds & -> & ? & ? & ?). now constructor.
Qed.

Lemma int_shape_number_chars s : int_shape s -> all_chars is_number_char s = true.
Proof.
  intros [|c ds Hc _ Hds|c ds Hc _ Hds]; cbn [all_chars]; try reflexivity.
  - now rewrite (digit_is_number_char c Hc), (all_digits_number_chars ds Hds).
  - now rewrite (digit_is_number_char c Hc), (all_digits_number_chars ds Hds).
Qed.

Lemma classify_digits c ds :
  is_digit c = true -> (c =? "0")%char = false -> all_chars is_digit ds = true ->
  match int_part (String c ds) with
  | Some r1 =>
      match frac_part r1 with
      | Some (f, r2) =>
          match exp_part r2 with
          | Some e => Some (f || e)
          | None => None
          end
      | None => None
      end
  | None => None
  end = Some false.
Proof.
  intros Hc H0 Hds. cbn [int_part]. now rewrite H0, Hc, (span_all _ _ Hds).
Qed.

Lemma int_shape_classify s : int_shape s -> classify s = Some false.
Proof.
  intros [|c ds Hc H0 Hds|c ds Hc H0 Hds]; unfold classify.
  - reflexivity.
  - unfold strip_minus.
    rewrite (char_differs is_digit c "-" Hc eq_refl). now apply classify_digits.
  - cbn [strip_minus Ascii.eqb Bool.eqb]. now apply classify_digits.
Qed.

Lemma int_of_string_int_str n : NilZero.int_of_string (int_str n) = Some (Z.to_int n).
Proof.
  unfold int_str. apply NilZero.isi.
  - destruct n; cbn; try discriminate.
    intro H. injection H. apply DecimalPos.Unsigned.to_uint_nonnil.
  - destruct n; cbn; try discriminate.
    intro H. injection H. apply DecimalPos.Unsigned.to_uint_nonnil.
Qed.

Lemma parse_number_int n rest :
  stops is_number_char rest ->
  parse_number (int_str n ++ rest) = Some (PyInt n, rest).
Proof.
  intro Hrest. unfold parse_number.
  rewrite (span_app _ _ _ (int_shape_number_chars _ (int_str_shape n)) Hrest).
  rewrite (int_shape_classify _ (int_str_shape n)), int_of_string_int_str.
  now rewrite DecimalZ.of_to.
Qed.

Lemma zero_is_digit c : (c =? "0")%char = true -> is_digit c = true.
Proof. intro H. apply Ascii.eqb_eq in H. now subst. Qed.

Lemma int_part_head s r : int_part s = Some r ->
  match s with String c _ => is_digit c = true | EmptyString => False end.
Proof.
  destruct s as [|c s]; cbn; [discriminate|].
  destruct (c =? "0")%char eqn:E; [intros _; now apply zero_is_digit|].
  destruct (is_digit c); [reflexivity|discriminate].
Qed.

Lemma classify_head tok b : classify tok = Some b -> number_head tok = true.
Proof.
  unfold classify. destruct (int_part (strip_minus tok)) as [r1|] eqn:E; [|discriminate].
  intros _. apply int_part_head in E.
  destruct tok as [|c t]; cbn in *; [contradiction|].
  destruct (c =? "-")%char.
  - destruct t as [|c' t']; [contradiction|]. rewrite E. now rewrite orb_true_r.
  - now rewrite E.
Qed.

Lemma prefix_differs c w s x :
  (x =? c)%char = false -> starts_with (String x w) (String c s) = false.
Proof. intro H. cbn. now rewrite H. Qed.

Lemma parse_atom_number tok rest :
  number_head tok = true -> parse_atom (tok ++ rest) = parse_number (tok ++ rest).
Proof.
  destruct tok as [|c t]; [discriminate|]. cbn [number_head append]. intro H.
  unfold parse_atom, literal.
  assert (Hc : is_digit c = true \/ c = "-"%char).
  { destruct (is_digit c); [now left|]. cbn in H.
    destruct (c =? "-")%char eqn:E; [|discriminate]. right. now apply Ascii.eqb_eq. }
  destruct Hc as [Hc| ->].
  - rewrite !prefix_differs by (apply Ascii.eqb_neq; intros <-; discriminate Hc).
    reflexivity.
  - rewrite !prefix_differs by reflexivity. cbn [or_try].
    cbn in H. destruct t as [|c' t']; [discriminate|].
    cbn [append]. change (starts_with "-Infinity" (String "-" (String c' (t' ++ rest))))
      with (starts_with "Infinity" (String c' (t' ++ rest))).
    rewrite prefix_differs; [reflexivity|].
    apply Ascii.eqb_neq. intros <-. discriminate H.
Qed.

Lemma parse_atom_int n rest :
  stops is_number_char rest -> parse_atom (int_str n ++ rest) = Some (PyInt n, rest).
Proof.
  intro Hrest. rewrite parse_atom_number; [now apply parse_number_int|].
  apply (classify_head _ false), int_shape_classify, int_str_shape.
Qed.

Lemma parse_atom_float r rest :
  float_literal r = true -> stops is_number_char rest ->
  parse_atom (json_float r ++ rest) = Some (PyFloat r, rest).
Proof.
  unfold float_literal, json_float. intros H Hrest.
  destruct (r =? "nan") eqn:E1; [apply String.eqb_eq in E1; subst; reflexivity|].
  destruct (r =? "inf") eqn:E2; [apply String.eqb_eq in E2; subst; reflexivity|].
  destruct (r =? "-inf") eqn:E3; [apply String.eqb_eq in E3; subst; reflexivity|].
  cbn [orb] in H. apply andb_true_iff in H as [Hchars Hclass].
  destruct (classify r) as [[|]|] eqn:Ec; try discriminate.
  rewrite parse_atom_number by (eapply classify_head; eassumption).
  unfold parse_number. now rewrite (span_app _ _ _ Hchars Hrest), Ec.
Qed.

(** *** Values *)

Lemma pyval_induction (P : pyval -> Prop) :
  P PyNone ->
  (forall b, P (PyBool b)) ->
  (forall n, P (PyInt n)) ->
  (forall r, P (PyFloat r)) ->
  (forall s, P (PyStr s)) ->
  (forall l, Forall P l -> P (PyList l)) ->
  (forall d, Forall (fun kv => P (snd kv)) d -> P (PyDict d)) ->
  forall v, P v.
Proof.
  intros HNone HBool HInt HFloat HStr HList HDict.
  fix IH 1. intros [ |b|n|r|s|l|d].
  - exact HNone.
  - apply HBool.
  - apply HInt.
  - apply HFloat.
  - apply HStr.
  - apply HList. induction l as [|x l IHl]; constructor; [apply IH|exact IHl].
  - apply HDict. induction d as [|[k x] d IHd]; constructor; [apply IH|exact IHd].
Qed.

Lemma parse_value_eq fuel s :
  parse_value (S fuel) s =
    match skip_ws s with
    | EmptyString => None
    | String c s1 =>
        if (c =? dquote)%char then
          match parse_string s1 with
          | Some (x, rest) => Some (PyStr x, rest)
          | None => None
          end
        else if (c =? "[")%char then
          match skip_ws s1 with
          | String c' s2 =>
              if (c' =? "]")%char then Some (PyList [], s2)
              else parse_elements fuel s1 []
          | EmptyString => None
          end
        else if (c =? "{")%char then
          match skip_ws s1 with
          | String c' s2 =>
              if (c' =? "}")%char then Some (PyDict [], s2)
              else parse_members fuel s1 []
          | EmptyString => None
          end
        else parse_atom (String c s1)
    end.
Proof. reflexivity. Qed.

Lemma parse_elements_eq fuel s acc :
  parse_elements (S fuel) s acc =
    match parse_value fuel s with
    | Some (v, s1) =>
        match skip_ws s1 with
        | String c s2 =>
            if (c =? ",")%char then parse_elements fuel s2 (v :: acc)
            else if (c =? "]")%char then Some (PyList (List.rev (v :: acc)), s2)
            else None
        | EmptyString => None
        end
    | None => None
    end.
Proof. reflexivity. Qed.

Lemma parse_members_eq fuel s acc :
  parse_members (S fuel) s acc =
    match skip_ws s with
    | String q s1 =>
        if (q =? dquote)%char then
          match parse_string s1 with
          | Some (k, s2) =>
              match skip_ws s2 with
              | String c s3 =>
                  if (c =? ":")%char then
                    match parse_value fuel s3 with
                    | Some (v, s4) =>
                        match skip_ws s4 with
                        | String c' s5 =>
                            if (c' =? ",")%char then
                              parse_members fuel s5 (dict_set acc k v)
                            else if (c' =? "}")%char then
                              Some (PyDict (dict_set acc k v), s5)
                            else None
                        | EmptyString => None
                        end
                    | None => None
                    end
                  else None
              | EmptyString => None
              end
          | None => None
          end
        else None
    | EmptyString => None
    end.
Proof. reflexivity. Qed.

Lemma parse_value_skip fuel w s :
  all_chars is_ws w = true -> parse_value fuel (w ++ s) = parse_value fuel s.
Proof.
  intro Hw. destruct fuel; [reflexivity|].
  now rewrite !parse_value_eq, skip_ws_app.
Qed.

Lemma digit_head c t : is_digit c = true -> value_head (String c t).
Proof.
  intro H. cbn. repeat split.
  - destruct (is_ws c) eqn:E; [|reflexivity].
    destruct c as [[] [] [] [] [] [] [] []]; discriminate.
  - apply (char_differs is_digit); auto.
  - apply (char_differs is_digit); auto.
Qed.

Lemma number_head_value_head tok rest : number_head tok = true -> value_head (tok ++ rest).
Proof.
  destruct tok as [|c t]; [discriminate|]. cbn [number_head append].
  destruct (is_digit c) eqn:E; [intros _; now apply digit_head|].
  cbn [orb]. destruct (c =? "-")%char eqn:E'; [|discriminate].
  apply Ascii.eqb_eq in E'. subst. intros _. cbn. auto.
Qed.

Lemma encode_head indent level v rest :
  json_value v = true -> value_head (json_encode indent level v ++ rest).
Proof.
  destruct v as [ |b|n|r|s|l|d]; cbn [json_encode json_value]; intro Hv.
  - cbn; auto.
  - destruct b; cbn; auto.
  - apply number_head_value_head, (classify_head _ false), int_shape_classify, int_str_shape.
  - unfold float_literal, json_float in *.
    destruct (r =? "nan"); [cbn; auto|].
    destruct (r =? "inf"); [cbn; auto|].
    destruct (r =? "-inf"); [cbn; auto|].
    cbn [orb] in Hv. apply andb_true_iff in Hv as [_ Hc].
    destruct (classify r) as [[|]|] eqn:E; try discriminate.
    eapply number_head_value_head, classify_head; eassumption.
  - cbn; auto.
  - destruct l; cbn; auto.
  - destruct d; cbn; auto.
Qed.

Lemma value_head_skip s :
  value_head s ->
  exists c s', s = String c s' /\ skip_ws s = s /\
               (c =? "]")%char = false /\ (c =? "}")%char = false.
Proof.
  destruct s as [|c s']; [contradiction|]. intros (Hws & H1 & H2).
  exists c, s'. cbn. now rewrite Hws.
Qed.

Lemma parse_value_atom fuel tok rest :
  number_head tok = true ->
  parse_value (S fuel) (tok ++ rest) = parse_atom (tok ++ rest).
Proof.
  intro H. pose proof (number_head_value_head tok rest H) as Hv.
  destruct tok as [|c t]; [discriminate|]. cbn [append] in *.
  destruct Hv as (Hws & _ & _).
  rewrite parse_value_eq. cbn [skip_ws]. rewrite Hws.
  cbn [number_head] in H.
  assert (Hc : is_digit c = true \/ c = "-"%char).
  { destruct (is_digit c); [now left|]. cbn in H.
    destruct (c =? "-")%char eqn:E; [|discriminate]. right. now apply Ascii.eqb_eq. }
  destruct Hc as [Hc| ->]; [|reflexivity].
  now rewrite !(char_differs is_digit c _ Hc) by reflexivity.
Qed.

Lemma stops_close indent level (c : ascii) rest :
  is_number_char c = false ->
  stops is_number_char (newline_indent indent level ++ String c rest).
Proof.
  destruct indent; cbn; auto.
Qed.

Lemma skip_ws_close indent level (c : ascii) rest :
  is_ws c = false ->
  skip_ws (newline_indent indent level ++ String c rest) = String c rest.
Proof.
  intro H. rewrite skip_ws_app by apply all_ws_newline_indent. cbn. now rewrite H.
Qed.

(** After the comma of a separator there is only white space. *)
Lemma separator_split indent level :
  exists w, all_chars is_ws w = true /\
    forall s, (item_separator indent ++ newline_indent indent level) ++ s = String "," (w ++ s).
Proof.
  destruct indent as [n|].
  - exists (newline_indent (Some n) level). split; [apply all_ws_newline_indent|].
    intro s. reflexivity.
  - exists " ". split; reflexivity.
Qed.

Lemma parse_elements_ok indent level l :
  Forall reads_back l -> forallb json_value l = true -> l <> [] ->
  forall acc fuel w rest,
    all_chars is_ws w = true ->
    fold_right (fun x n => S (cost x + n)) 0 l <= fuel ->
    parse_elements fuel
      (w ++ join (item_separator indent ++ newline_indent indent (S level))
                 (map (json_encode indent (S level)) l)
         ++ newline_indent indent level ++ String "]" rest) acc
    = Some (PyList (List.rev acc ++ l), rest).
Proof.
  induction l as [|x l IH]; [congruence|].
  intros HP Hv _ acc fuel w rest Hw Hfuel.
  inversion HP as [|? ? Hx Hl]; subst.
  cbn [forallb] in Hv. apply andb_true_iff in Hv as [Hvx Hvl].
  cbn [fold_right] in Hfuel. destruct fuel as [|fuel]; [lia|].
  rewrite parse_elements_eq, parse_value_skip by assumption.
  destruct l as [|y l].
  - cbn [map join].
    rewrite (Hx Hvx) by (solve [lia | now apply stops_close]).
    rewrite skip_ws_close by reflexivity. reflexivity.
  - change (join ?sep (map ?f (x :: y :: l)))
      with (f x ++ sep ++ join sep (map f (y :: l))).
    rewrite !string_app_assoc.
    destruct (separator_split indent (S level)) as (w' & Hw' & Hsep).
    rewrite <- (string_app_assoc (item_separator indent)), Hsep.
    rewrite (Hx Hvx) by (solve [lia | reflexivity]).
    cbn [skip_ws]. change (is_ws ",") with false. cbv beta iota.
    change ("," =? ",")%char with true. cbv beta iota.
    rewrite IH; try assumption; try discriminate; try lia.
    cbn [List.rev]. now rewrite <- app_assoc.
Qed.

Lemma dict_set_fresh acc k v :
  dict_get acc k = None -> dict_set acc k v = (acc ++ [(k, v)])%list.
Proof.
  induction acc as [|[k' v'] acc IH]; cbn; [reflexivity|].
  destruct (k' =? k); [discriminate|]. intro H. now rewrite IH.
Qed.

Lemma dict_get_snoc acc k v k' :
  dict_get acc k' = None -> (k =? k') = false ->
  dict_get (acc ++ [(k, v)]) k' = None.
Proof.
  induction acc as [|[k0 v0] acc IH]; cbn; intros H Hk.
  - now rewrite Hk.
  - destruct (k0 =? k'); [discriminate|]. now apply IH.
Qed.

Lemma existsb_eqb_false k keys k' :
  existsb (String.eqb k) keys = false -> In k' keys -> (k =? k') = false.
Proof.
  induction keys as [|x keys IH]; cbn; [contradiction|].
  intros H [->|Hin]; apply orb_false_iff in H as [H1 H2]; auto.
Qed.

Lemma parse_members_ok indent level d :
  Forall (fun kv => reads_back (snd kv)) d ->
  forallb (fun kv => json_value (snd kv)) d = true ->
  distinct (map fst d) = true ->
  d <> [] ->
  forall acc fuel w rest,
    all_chars is_ws w = true ->
    fold_right (fun kv n => S (cost (snd kv) + n)) 0 d <= fuel ->
    (forall k, In k (map fst d) -> dict_get acc k = None) ->
    parse_members fuel
      (w ++ join (item_separator indent ++ newline_indent indent (S level))
                 (map (json_member indent (S level)) d)
         ++ newline_indent indent level ++ String "}" rest) acc
    = Some (PyDict (acc ++ d), rest).
Proof.
  induction d as [|[k x] d IH]; [congruence|].
  intros HP Hv Hd _ acc fuel w rest Hw Hfuel Hfresh.
  inversion HP as [|? ? Hx Hl]; subst. cbn [snd] in Hx.
  cbn [forallb snd] in Hv. apply andb_true_iff in Hv as [Hvx Hvl].
  cbn [map fst distinct] in Hd. apply andb_true_iff in Hd as [Hk Hd].
  apply negb_true_iff in Hk.
  cbn [fold_right snd] in Hfuel. destruct fuel as [|fuel]; [lia|].
  rewrite parse_members_eq, skip_ws_app by assumption.
  assert (Hacc : dict_set acc k x = (acc ++ [(k, x)])%list).
  { apply dict_set_fresh, Hfresh. now left. }
  destruct d as [|y d].
  - cbn [map join]. unfold json_member at 1. cbn [fst snd].
    rewrite !string_app_assoc.
    match goal with
    | |- context [json_string k ++ ?tail] =>
        destruct (parse_string_json_string k tail) as (body & -> & Hbody)
    end.
    cbn [skip_ws]. change (is_ws dquote) with false. cbv beta iota.
    rewrite Ascii.eqb_refl, Hbody.
    cbn [append skip_ws]. change (is_ws ":") with false. cbv beta iota.
    change (":" =? ":")%char with true. cbv beta iota.
    match goal with
    | |- context [parse_value fuel (String " " ?tail)] =>
        change (String " " tail) with (" " ++ tail)
    end.
    rewrite (parse_value_skip fuel " ") by reflexivity.
    rewrite (Hx Hvx) by (solve [lia | now apply stops_close]).
    rewrite skip_ws_close by reflexivity.
    change ("}" =? ",")%char with false. change ("}" =? "}")%char with true.
    cbv beta iota. now rewrite Hacc.
  - change (join ?sep (map ?f ((k, x) :: y :: d)))
      with (f (k, x) ++ sep ++ join sep (map f (y :: d))).
    unfold json_member at 1. cbn [fst snd].
    rewrite !string_app_assoc.
    destruct (separator_split indent (S level)) as (w' & Hw' & Hsep).
    rewrite <- (string_app_assoc (item_separator indent)), Hsep.
    match goal with
    | |- context [json_string k ++ ?tail] =>
        destruct (parse_string_json_string k tail) as (body & -> & Hbody)
    end.
    cbn [skip_ws]. change (is_ws dquote) with false. cbv beta iota.
    rewrite Ascii.eqb_refl, Hbody.
    cbn [append skip_ws]. change (is_ws ":") with false. cbv beta iota.
    change (":" =? ":")%char with true. cbv beta iota.
    match goal with
    | |- context [parse_value fuel (String " " ?tail)] =>
        change (String " " tail) with (" " ++ tail)
    end.
    rewrite (parse_value_skip fuel " ") by reflexivity.
    rewrite (Hx Hvx) by (solve [lia | reflexivity]).
    cbn [skip_ws]. change (is_ws ",") with false. cbv beta iota.
    change ("," =? ",")%char with true. cbv beta iota.
    rewrite Hacc, IH; try assumption; try discriminate; try lia.
    + now rewrite <- app_assoc.
    + intros k' Hin. apply dict_get_snoc.
      * apply Hfresh. now right.
      * eapply existsb_eqb_false; eassumption.
Qed.

Lemma join_head sep f (x : pyval) l tail :
  exists tail', join sep (map f (x :: l)) ++ tail = f x ++ tail'.
Proof.
  destruct l as [|y l].
  - now exists tail.
  - exists (sep ++ join sep (map f (y :: l)) ++ tail).
    change (join sep (map f (x :: y :: l))) with (f x ++ sep ++ join sep (map f (y :: l))).
    now rewrite !string_app_assoc.
Qed.

Lemma every_value_reads_back v : reads_back v.
Proof.
  induction v as [ |b|n|r|s|l IH|d IH] using pyval_induction;
    intros Hv indent level fuel rest Hfuel Hrest;
    (destruct fuel as [|fuel]; [cbn in Hfuel; lia|]).
  - reflexivity.
  - destruct b; reflexivity.
  - cbn [json_encode].
    rewrite parse_value_atom
      by (apply (classify_head _ false), int_shape_classify, int_str_shape).
    now apply parse_atom_int.
  - cbn [json_encode json_value] in *.
    pose proof (parse_atom_float r rest Hv Hrest) as Hatom.
    unfold float_literal, json_float in *.
    destruct (r =? "nan") eqn:E1; [apply String.eqb_eq in E1; subst; reflexivity|].
    destruct (r =? "inf") eqn:E2; [apply String.eqb_eq in E2; subst; reflexivity|].
    destruct (r =? "-inf") eqn:E3; [apply String.eqb_eq in E3; subst; reflexivity|].
    cbn [orb] in Hv. apply andb_true_iff in Hv as [_ Hc].
    destruct (classify r) as [[|]|] eqn:Ec; try discriminate.
    rewrite parse_value_atom by (eapply classify_head; eassumption). exact Hatom.
  - cbn [json_encode].
    destruct (parse_string_json_string s rest) as (body & -> & Hbody).
    rewrite parse_value_eq. cbn [skip_ws]. change (is_ws dquote) with false. cbv beta iota.
    now rewrite Ascii.eqb_refl, Hbody.
  - destruct l as [|x l]; [reflexivity|].
    change (json_encode indent level (PyList (x :: l)))
      with ("[" ++ newline_indent indent (S level)
            ++ join (item_separator indent ++ newline_indent indent (S level))
                    (map (json_encode indent (S level)) (x :: l))
            ++ newline_indent indent level ++ "]").
    rewrite !string_app_assoc. cbn [append].
    rewrite parse_value_eq. cbn [skip_ws]. change (is_ws "[") with false. cbv beta iota.
    change ("[" =? dquote)%char with false. change ("[" =? "[")%char with true.
    cbv beta iota.
    rewrite skip_ws_app by apply all_ws_newline_indent.
    cbn [json_value] in Hv. assert (Hvx : json_value x = true).
    { cbn [forallb] in Hv. now apply andb_true_iff in Hv as [? _]. }
    match goal with
    | |- context [skip_ws (join ?sep (map ?f (x :: l)) ++ ?tail)] =>
        destruct (join_head sep f x l tail) as (tail' & E); rewrite E;
        destruct (value_head_skip _ (encode_head indent (S level) x tail' Hvx))
          as (c & s' & E' & Hskip & Hc & _);
        rewrite Hskip, E', Hc, <- E', <- E
    end.
    rewrite (parse_elements_ok indent level (x :: l) IH Hv);
      solve [reflexivity | discriminate | apply all_ws_newline_indent
            | cbn [cost] in Hfuel; lia].
  - destruct d as [|[k x] d]; [reflexivity|].
    change (json_encode indent level (PyDict ((k, x) :: d)))
      with ("{" ++ newline_indent indent (S level)
            ++ join (item_separator indent ++ newline_indent indent (S level))
                    (map (json_member indent (S level)) ((k, x) :: d))
            ++ newline_indent indent level ++ "}").
    rewrite !string_app_assoc. cbn [append].
    rewrite parse_value_eq. cbn [skip_ws]. change (is_ws "{") with false. cbv beta iota.
    change ("{" =? dquote)%char with false. change ("{" =? "[")%char with false.
    change ("{" =? "{")%char with true. cbv beta iota.
    rewrite skip_ws_app by apply all_ws_newline_indent.
    cbn [json_value] in Hv. apply andb_true_iff in Hv as [Hd Hv].
    match goal with
    | |- context [skip_ws (join ?sep (map ?f ((k, x) :: d)) ++ ?tail)] =>
        assert (Hq : exists s', join sep (map f ((k, x) :: d)) ++ tail = String dquote s')
    end.
    { destruct d as [|y d].
      - cbn [map join]. unfold json_member, json_string. cbn. eauto.
      - change (join ?sep (map ?f ((k, x) :: y :: d)))
          with (f (k, x) ++ sep ++ join sep (map f (y :: d))).
        unfold json_member at 1, json_string. cbn. eauto. }
    destruct Hq as (s' & Hq). rewrite Hq. cbn [skip_ws].
    change (is_ws dquote) with false. cbv beta iota.
    change (dquote =? "}")%char with false. cbv beta iota. rewrite <- Hq.
    rewrite (parse_members_ok indent level ((k, x) :: d) IH Hv Hd);
      solve [reflexivity | discriminate | apply all_ws_newline_indent
            | cbn [cost] in Hfuel; lia].
Qed.

(** *** The fuel: a text is at least as long as its value costs to read *)

Lemma join_cost {A} (f : A -> string) (c : A -> nat) sep l :
  1 <= String.length sep ->
  Forall (fun x => c x <= String.length (f x)) l ->
  fold_right (fun x n => S (c x + n)) 0 l <= S (String.length (join sep (map f l))).
Proof.
  intros Hsep Hl. induction Hl as [|x l Hx Hl IH]; cbn [fold_right]; [lia|].
  destruct l as [|y l].
  - cbn [map join fold_right]. lia.
  - change (join sep (map f (x :: y :: l))) with (f x ++ sep ++ join sep (map f (y :: l))).
    rewrite !string_app_length. lia.
Qed.

Lemma separator_length indent level :
  1 <= String.length (item_separator indent ++ newline_indent indent level).
Proof.
  rewrite string_app_length. destruct indent; cbn; lia.
Qed.

Lemma float_literal_nonempty r :
  float_literal r = true -> 1 <= String.length (json_float r).
Proof.
  unfold float_literal, json_float.
  destruct (r =? "nan"); [cbn; lia|].
  destruct (r =? "inf"); [cbn; lia|].
  destruct (r =? "-inf"); [cbn; lia|].
  cbn [orb]. intro H. apply andb_true_iff in H as [_ H].
  destruct (classify r) as [[|]|] eqn:E; try discriminate.
  apply classify_head in E. destruct r; [discriminate|cbn; lia].
Qed.

Lemma cost_le_length indent v :
  json_value v = true -> forall level, cost v <= String.length (json_encode indent level v).
Proof.
  induction v as [ |b|n|r|s|l IH|d IH] using pyval_induction; intros Hv level.
  - cbn; lia.
  - destruct b; cbn; lia.
  - cbn [json_encode cost]. destruct (int_str_shape n); cbn; lia.
  - now apply float_literal_nonempty.
  - cbn; lia.
  - destruct l as [|x l]; [cbn; lia|].
    change (json_encode indent level (PyList (x :: l)))
      with ("[" ++ newline_indent indent (S level)
            ++ join (item_separator indent ++ newline_indent indent (S level))
                    (map (json_encode indent (S level)) (x :: l))
            ++ newline_indent indent level ++ "]").
    cbn [cost]. rewrite !string_app_length.
    pose proof (join_cost (json_encode indent (S level)) cost _ (x :: l)
                  (separator_length indent (S level))) as H.
    cbn [String.length]. cbn [json_value] in Hv.
    assert (Hall : Forall (fun x => cost x <= String.length (json_encode indent (S level) x))
                          (x :: l)).
    { apply Forall_forall. intros y Hy.
      rewrite Forall_forall in IH. apply IH; [assumption|].
      rewrite forallb_forall in Hv. now apply Hv. }
    specialize (H Hall). lia.
  - destruct d as [|kv d]; [cbn; lia|].
    change (json_encode indent level (PyDict (kv :: d)))
      with ("{" ++ newline_indent indent (S level)
            ++ join (item_separator indent ++ newline_indent indent (S level))
                    (map (json_member indent (S level)) (kv :: d))
            ++ newline_indent indent level ++ "}").
    cbn [cost]. rewrite !string_app_length.
    pose proof (join_cost (json_member indent (S level)) (fun kv => cost (snd kv)) _ (kv :: d)
                  (separator_length indent (S level))) as H.
    cbn [String.length]. cbn [json_value] in Hv. apply andb_true_iff in Hv as [_ Hv].
    assert (Hall : Forall (fun kv => cost (snd kv)
                                     <= String.length (json_member indent (S level) kv))
                          (kv :: d)).
    { apply Forall_forall. intros y Hy.
      rewrite Forall_forall in IH. unfold json_member. rewrite !string_app_length.
      rewrite forallb_forall in Hv. specialize (IH y Hy (Hv y Hy) (S level)). lia. }
    specialize (H Hall). lia.
Qed.

Lemma string_app_empty s : s ++ EmptyString = s.
Proof. induction s as [|c s IH]; cbn; [reflexivity|now rewrite IH]. Qed.

(** [json.loads(json.dumps(v, indent=n)) == v], and the same without
    [indent]. *)
Theorem json_loads_dumps indent v :
  json_value v = true -> json_loads (json_dumps indent v) = Some v.
Proof.
  intro Hv. unfold json_loads, json_dumps.
  pose proof (every_value_reads_back v Hv indent 0
                (String.length (json_encode indent 0 v)) EmptyString
                (cost_le_length indent v Hv 0) I) as H.
  rewrite string_app_empty in H. now rewrite H.
Qed.

(** ** What every method leaves alone *)

Lemma frame_refl s : frame s s.
Proof.
  repeat split; exists []; now rewrite app_nil_r.
Qed.

Lemma frame_trans s1 s2 s3 : frame s1 s2 -> frame s2 s3 -> frame s1 s3.
Proof.
  intros (Hu & Hp & Hj & Hr & n1 & Hc) (Hu' & Hp' & Hj' & Hr' & n2 & Hc').
  repeat split; try congruence.
  exists (n1 ++ n2)%list. now rewrite Hc', Hc, app_assoc.
Qed.

Lemma no_new_calls s (new : list request) :
  calls (session s) = (calls (session s) ++ new)%list -> new = [].
Proof.
  intro H. apply (app_inv_head (calls (session s))). now rewrite app_nil_r.
Qed.

Lemma regular_ret {A} (a : A) : regular (ret a).
Proof.
  split; [intro; apply frame_refl|].
  cbn. intros s1 s2 new Ha Hc _.
  apply no_new_calls in Hc. subst new.
  now rewrite app_nil_r.
Qed.

Lemma regular_lift {A} (o : outcome A) : regular (lift o).
Proof.
  split; [intro; apply frame_refl|].
  cbn. intros s1 s2 new Ha Hc _.
  apply no_new_calls in Hc. subst new.
  now rewrite app_nil_r.
Qed.

Lemma regular_raise {A} (e : exn) : regular (@raise A e).
Proof. exact (regular_lift (Raised e)). Qed.

Lemma regular_unawaited {A} (c : coro A) : regular (unawaited c).
Proof. exact (regular_ret tt). Qed.

Lemma regular_set_token t : regular (set_token t).
Proof.
  split.
  - intro s. cbn. repeat split. exists []. now rewrite app_nil_r.
  - cbn. intros s1 s2 new (Hu & Hp & Hj & Ht) Hc _.
    apply no_new_calls in Hc. subst new.
    rewrite app_nil_r. repeat split; assumption.
Qed.

Lemma regular_record_call r : regular (record_call r).
Proof.
  split.
  - intro s. cbn. repeat split. now exists [r].
  - cbn. intros s1 s2 new (Hu & Hp & Hj & Ht) Hc Hag.
    apply app_inv_head in Hc. subst new.
    specialize (Hag [] r [] eq_refl). rewrite !app_nil_r in Hag.
    rewrite Hag. repeat split; assumption.
Qed.

Lemma regular_read {A} (f : TalentSolarMonitor -> A) :
  (forall s1 s2, alike s1 s2 -> f s1 = f s2) ->
  regular (fun self => (Returned (f self), self)).
Proof.
  intro Hf. split; [intro; apply frame_refl|].
  cbn. intros s1 s2 new Ha Hc _.
  apply no_new_calls in Hc. subst new.
  rewrite app_nil_r, (Hf s1 s2 Ha). auto.
Qed.

Lemma regular_self_username : regular self_username.
Proof. apply regular_read. now intros s1 s2 (? & ? & ? & ?). Qed.

Lemma regular_self_password : regular self_password.
Proof. apply regular_read. now intros s1 s2 (? & ? & ? & ?). Qed.

Lemma regular_self_return_json : regular self_return_json.
Proof. apply regular_read. now intros s1 s2 (? & ? & ? & ?). Qed.

Lemma regular_self_token : regular self_token.
Proof. apply regular_read. now intros s1 s2 (? & ? & ? & ?). Qed.

Lemma regular_bind {A B} (c : coro A) (k : A -> coro B) :
  regular c -> (forall a, regular (k a)) -> regular (bind c k).
Proof.
  intros [Fc Dc] Hk. split.
  - intro s. unfold bind. specialize (Fc s).
    destruct (c s) as [[a|e] s']; cbn in *; [|assumption].
    eapply frame_trans; [eassumption|]. apply (Hk a).
  - intros s1 s2 new Hal Hcalls Hag.
    unfold bind in *.
    pose proof (Fc s1) as F1. pose proof (Fc s2) as F2.
    specialize (Dc s1 s2).
    destruct (c s1) as [[a|e] s1'] eqn:E1; cbn in *.
    + destruct F1 as (_ & _ & _ & Hr1 & n1 & Hn1).
      destruct (Hk a) as [Fk Dk].
      pose proof (Fk s1') as (_ & _ & _ & _ & n2 & Hn2).
      assert (new = (n1 ++ n2)%list) as ->.
      { apply (app_inv_head (calls (session s1))).
        rewrite <- Hcalls, Hn2, Hn1. now rewrite app_assoc. }
      destruct (Dc n1 Hal Hn1) as (Ho & Hal' & Hc2).
      { intros pre r rest ->. apply (Hag pre r (rest ++ n2)%list).
        now rewrite <- app_assoc. }
      destruct (c s2) as [o2 s2'] eqn:E2; cbn in *. subst o2.
      destruct F2 as (_ & _ & _ & Hr2 & _).
      destruct (Dk s1' s2' n2 Hal' Hn2) as (Ho' & Hal'' & Hc2').
      { intros pre r rest ->. rewrite Hr1, Hr2, Hn1, Hc2, <- !app_assoc.
        apply (Hag (n1 ++ pre)%list r rest). now rewrite <- app_assoc. }
      repeat split; try assumption; try apply Hal''.
      now rewrite Hc2', Hc2, app_assoc.
    + destruct (c s2) as [o2 s2'] eqn:E2; cbn in *.
      destruct (Dc new Hal Hcalls Hag) as (-> & ? & ?). auto.
Qed.

Lemma regular_response_json r : regular (response_json r).
Proof.
  unfold response_json. destruct (body r); [apply regular_ret | apply regular_raise].
Qed.

Lemma regular_local name v : regular (local name v).
Proof.
  unfold local. destruct v; [apply regular_ret | apply regular_raise].
Qed.

Create HintDb regular.
#[local] Hint Resolve regular_ret regular_raise regular_lift regular_unawaited
  regular_set_token regular_record_call regular_self_username regular_self_password
  regular_self_return_json regular_self_token regular_response_json regular_local
  : regular.

(** A method body is walked through bind by bind, each branch apart. *)
Ltac regular_step :=
  match goal with
  | |- regular (bind _ _) => apply regular_bind; [|intro]
  | |- regular (if ?b then _ else _) => destruct b
  | |- regular (match ?x with _ => _ end) => destruct x
  | |- regular (await _) => unfold await
  | |- regular _ => solve [auto with regular]
  end.

Lemma regular_login : regular login.
Proof.
  unfold login, session_post. repeat regular_step.
Qed.

Lemma regular_refresh_token : regular refresh_token.
Proof. apply regular_unawaited. Qed.

#[local] Hint Resolve regular_login regular_refresh_token : regular.

Lemma regular_get_data endpoint : regular (get_data endpoint).
Proof.
  unfold get_data, session_get. repeat regular_step.
Qed.

Lemma regular_get_credentials : regular get_credentials.
Proof.
  unfold get_credentials. repeat regular_step.
Qed.

#[local] Hint Resolve regular_get_data regular_get_credentials : regular.

Lemma regular_fetch_solar_data : regular fetch_solar_data.
Proof.
  unfold fetch_solar_data. repeat regular_step.
Qed.

(** ** What one call does, written out *)

Lemma get_data_eq endpoint s :
  let req := get_request endpoint (token s) in
  let r1 := respond (session s) (calls (session s)) req in
  get_data endpoint s =
    if (status r1 =? 401)%Z then
      (data_of (respond (session s) (calls (session s) ++ [req]) req), with_calls s [req; req])
    else (data_of r1, with_calls s [req]).
Proof.
  intros req r1. subst req r1.
  unfold get_data, bind, await, self_token, unawaited, ret, session_get, record_call,
    get_request, data_of, response_json, with_calls, raise.
  destruct (negb (truthy (token s)));
    (destruct (status _ =? 401)%Z; cbn [session calls respond token username password return_json];
     repeat match goal with
       | |- context [(status ?r =? 200)%Z] => destruct (status r =? 200)%Z
       | |- context [body ?r] => destruct (body r)
       end;
     rewrite <- ?app_assoc; reflexivity).
Qed.

Lemma login_eq s :
  let req := login_request s in
  let s' := with_calls s [req] in
  login s =
    match body (respond (session s) (calls (session s)) req) with
    | None => (Raised ContentTypeError, s')
    | Some v =>
        match contains "token" v with
        | Raised e => (Raised e, s')
        | Returned false => (Raised (AuthenticationError "Authentication failed"), s')
        | Returned true =>
            match getitem v (PyStr "token") with
            | Returned t => (Returned tt, with_token s' t)
            | Raised e => (Raised e, s')
            end
        end
    end.
Proof.
  cbn zeta. unfold login, bind, await, self_username, self_password, session_post,
    record_call, response_json, lift, ret, raise, set_token.
  fold (login_request s).
  destruct (body _) as [v|]; [|reflexivity].
  destruct (contains "token" v) as [[|]|e]; reflexivity.
Qed.

Lemma get_credentials_eq s :
  get_credentials s =
    (if falsy_str (username s) || falsy_str (password s)
     then Raised credentials_error else Returned tt, s).
Proof.
  unfold get_credentials, bind, self_username, self_password.
  destruct (_ || _); reflexivity.
Qed.

Lemma bind_eq {A B} (c : coro A) (k : A -> coro B) s :
  bind c k s =
    match c s with
    | (Returned a, s') => k a s'
    | (Raised e, s') => (Raised e, s')
    end.
Proof. reflexivity. Qed.

(** ** The claims *)

(** C8.  [login] posts the JSON object [{username, password}] to
    [BASE_URL/login].  When the body of the response is a JSON object with a
    [token] field, the value of that field becomes the held token and [login]
    returns; when the object has no such field, [login] raises
    [AuthenticationError] and the held token is the one held before. *)
Theorem login_stores_token_or_fails (s : TalentSolarMonitor) (d : list (string * pyval)) :
  let req := POST (BASE_URL ++ "/login")
                  (PyDict [("username", opt_str (username s));
                           ("password", opt_str (password s))]) in
  body (respond (session s) (recorded s) req) = Some (PyDict d) ->
  recorded (after login s) = (recorded s ++ [req])%list /\
  match dict_get d "token" with
  | Some t =>
      run login s = Returned tt /\ token (after login s) = t
  | None =>
      run login s = Raised (AuthenticationError "Authentication failed") /\
      token (after login s) = token s
  end.
Proof.
  intros req Hbody. unfold run, after, recorded in *.
  rewrite login_eq. fold (login_request s) in req. fold req.
  rewrite Hbody. cbn [contains getitem].
  destruct (dict_get d "token") as [t|]; cbn; auto.
Qed.

Lemma login_stores_token_or_fails_witness :
  recorded (after login Mock.client)
  = [POST "https://www.talent-monitoring.com/prod-api/login"
          (PyDict [("username", PyStr "alice"); ("password", PyStr "secret")])] /\
  run login Mock.client = Returned tt /\
  token (after login Mock.client) = PyStr "tok-1".
Proof.
  exact (login_stores_token_or_fails Mock.client
           [("code", PyInt 200); ("token", PyStr "tok-1")] eq_refl).
Defined.

(** C8 fails as stated: a body with no token field does not always give
    [AuthenticationError].  When the service answers the login with [null],
    [login] raises [TypeError]; when the answer cannot be decoded as JSON, it
    raises the error of [response.json()]. *)
Lemma login_without_token_is_not_always_authentication_error :
  (body (respond (session Sample.client_login_null) []
           (login_request Sample.client_login_null)) = Some PyNone /\
   run login Sample.client_login_null = Raised TypeError /\
   ~ (exists msg, run login Sample.client_login_null = Raised (AuthenticationError msg))) /\
  (body (respond (session Sample.client_login_html) []
           (login_request Sample.client_login_html)) = None /\
   run login Sample.client_login_html = Raised ContentTypeError /\
   ~ (exists msg, run login Sample.client_login_html = Raised (AuthenticationError msg))).
Proof.
  repeat split; try (vm_compute; reflexivity);
    intros [msg H]; vm_compute in H; discriminate H.
Qed.

(** C6.  With the username or the password unset or empty,
    [fetch_solar_data] raises the [ValueError] whose message begins
    [Credentials not provided], and the transport has recorded nothing new:
    no POST to [/login], no GET.  (The spec calls this error
    ConfigurationError.) *)
Theorem fetch_solar_data_without_credentials (s : TalentSolarMonitor) :
  unset_or_empty (username s) \/ unset_or_empty (password s) ->
  exists msg,
    run fetch_solar_data s = Raised (ValueError msg) /\
    prefix "Credentials not provided" msg = true /\
    recorded (after fetch_solar_data s) = recorded s.
Proof.
  intro H.
  exists "Credentials not provided via command line arguments or environment variables.".
  assert (E : falsy_str (username s) || falsy_str (password s) = true).
  { destruct H as [[->| ->]|[->| ->]]; cbn; auto using orb_true_r. }
  unfold run, after, recorded, fetch_solar_data.
  rewrite bind_eq, get_credentials_eq, E. cbn. auto.
Qed.

Lemma fetch_solar_data_without_credentials_witness :
  exists msg,
    run fetch_solar_data Mock.client_without_password = Raised (ValueError msg) /\
    prefix "Credentials not provided" msg = true /\
    recorded (after fetch_solar_data Mock.client_without_password) = [].
Proof.
  exact (fetch_solar_data_without_credentials Mock.client_without_password
           (or_intror (or_introl eq_refl))).
Defined.

(** What [get_data] does on a 401.  When its first GET is answered 401,
    the call records exactly two GETs, both to [BASE_URL/endpoint]: the first
    and one retry, which is the last request of the call and carries the
    token the instance then holds.  What [get_data] returns is decided by the
    response to the retry alone: its body on 200, [None] on any other
    status. *)
Lemma get_data_retries_once (s : TalentSolarMonitor) (endpoint : string) :
  status (respond (session s) (recorded s) (get_request endpoint (token s))) = 401%Z ->
  exists earlier retry,
    recorded (after (get_data endpoint) s) = (recorded s ++ earlier ++ [retry])%list /\
    filter is_get earlier = [get_request endpoint (token s)] /\
    retry = get_request endpoint (token (after (get_data endpoint) s)) /\
    run (get_data endpoint) s
    = data_of (respond (session s) (recorded s ++ earlier) retry) /\
    (status (respond (session s) (recorded s ++ earlier) retry) = 401%Z ->
     run (get_data endpoint) s = Returned PyNone).
Proof.
  intro H401. unfold run, after, recorded in *.
  rewrite get_data_eq. cbv zeta. rewrite H401. cbn [Z.eqb Pos.eqb fst snd].
  exists [get_request endpoint (token s)], (get_request endpoint (token s)).
  cbn [with_calls session calls token app filter is_get is_post negb get_request].
  repeat split.
  intro H. unfold data_of. now rewrite H.
Qed.

Lemma get_data_retries_once_witness :
  exists earlier retry,
    recorded (after (get_data "system/station/list") Mock.client_rejected)
    = (earlier ++ [retry])%list /\
    filter is_get earlier = [get_request "system/station/list" (PyStr "tok-0")] /\
    retry = get_request "system/station/list" (PyStr "tok-0") /\
    run (get_data "system/station/list") Mock.client_rejected
    = data_of (Mock.unauthorized) /\
    (status Mock.unauthorized = 401%Z ->
     run (get_data "system/station/list") Mock.client_rejected = Returned PyNone).
Proof.
  exact (get_data_retries_once Mock.client_rejected "system/station/list" eq_refl).
Defined.

(** C1 does not hold of the code: on a 401 [get_data] never
    re-authenticates.  The client holds the expired token [tok-0]; the
    service would accept a login (an awaited [login] returns and leaves the
    token [tok-1], and a [get_data] after it obtains the station list).  Yet
    [get_data] makes no POST: [refresh_token] and [login] are called without
    [await].  It records two GETs that both carry [tok-0], still holds
    [tok-0], and returns [None].  On a service that answers every request
    with 401 it likewise returns [None] after two GETs, and raises no
    [AuthenticationError]. *)
Theorem get_data_does_not_reauthenticate :
  (status (respond (session Sample.client_expired) []
             (get_request "system/station/list" (PyStr "tok-0"))) = 401%Z /\
   run login Sample.client_expired = Returned tt /\
   token (after login Sample.client_expired) = PyStr "tok-1" /\
   run (get_data "system/station/list") (after login Sample.client_expired)
   = Returned Mock.station_list /\
   recorded (after (get_data "system/station/list") Sample.client_expired)
   = [get_request "system/station/list" (PyStr "tok-0");
      get_request "system/station/list" (PyStr "tok-0")] /\
   token (after (get_data "system/station/list") Sample.client_expired) = PyStr "tok-0" /\
   run (get_data "system/station/list") Sample.client_expired = Returned PyNone) /\
  (recorded (after (get_data "system/station/list") Mock.client_rejected)
   = [get_request "system/station/list" (PyStr "tok-0");
      get_request "system/station/list" (PyStr "tok-0")] /\
   status (respond (session Mock.client_rejected)
             [get_request "system/station/list" (PyStr "tok-0")]
             (get_request "system/station/list" (PyStr "tok-0"))) = 401%Z /\
   run (get_data "system/station/list") Mock.client_rejected = Returned PyNone /\
   ~ (exists msg, run (get_data "system/station/list") Mock.client_rejected
                  = Raised (AuthenticationError msg))).
Proof.
  repeat split; try (vm_compute; reflexivity).
  intros [msg H]. vm_compute in H. discriminate H.
Qed.

Lemma falsy_str_false u : u <> EmptyString -> falsy_str (Some u) = false.
Proof.
  intro H. destruct u; [contradiction|reflexivity].
Qed.

Lemma bind_recorded {A B} (c : coro A) (k : A -> coro B) s l :
  (forall a, regular (k a)) ->
  recorded (after c s) = (recorded s ++ l)%list ->
  exists rest, recorded (after (bind c k) s) = (recorded s ++ l ++ rest)%list.
Proof.
  unfold recorded, after, bind. intros Hk Hc.
  destruct (c s) as [[a|e] s']; cbn [snd] in *.
  - destruct (proj1 (Hk a) s') as (_ & _ & _ & _ & rest & Hrest).
    exists rest. now rewrite Hrest, Hc, app_assoc.
  - exists []. now rewrite app_nil_r.
Qed.

Lemma login_recorded s :
  recorded (after login s) = (recorded s ++ [login_request s])%list.
Proof.
  unfold recorded, after. rewrite login_eq. cbv zeta.
  destruct (body _) as [v|]; [|reflexivity].
  destruct (contains "token" v) as [[|]|]; try reflexivity.
  destruct (getitem v (PyStr "token")); reflexivity.
Qed.

(** C4, as the code has it.  Every invocation of [fetch_solar_data] on an
    instance with credentials logs in first, whatever token the instance
    already holds: the first request it makes is the POST to [BASE_URL/login]. *)
Theorem fetch_solar_data_logs_in_first (s : TalentSolarMonitor) (u p : string) :
  username s = Some u -> u <> EmptyString ->
  password s = Some p -> p <> EmptyString ->
  exists rest,
    recorded (after fetch_solar_data s)
    = (recorded s
       ++ POST (BASE_URL ++ "/login") (PyDict [("username", PyStr u); ("password", PyStr p)])
       :: rest)%list.
Proof.
  intros Hu Hu' Hp Hp'.
  assert (Hreq : login_request s
    = POST (BASE_URL ++ "/login") (PyDict [("username", PyStr u); ("password", PyStr p)])).
  { unfold login_request. now rewrite Hu, Hp. }
  rewrite <- Hreq.
  unfold fetch_solar_data, after. rewrite bind_eq, get_credentials_eq.
  rewrite Hu, Hp, !falsy_str_false by assumption.
  cbv beta iota. cbn [orb].
  apply (bind_recorded (await login) _ s [login_request s]).
  - intro a. repeat regular_step.
  - apply login_recorded.
Qed.

Lemma fetch_solar_data_logs_in_first_witness :
  exists rest,
    recorded (after fetch_solar_data (after fetch_solar_data Mock.client))
    = (recorded (after fetch_solar_data Mock.client)
       ++ POST (BASE_URL ++ "/login")
               (PyDict [("username", PyStr "alice"); ("password", PyStr "secret")])
       :: rest)%list.
Proof.
  apply (fetch_solar_data_logs_in_first (after fetch_solar_data Mock.client) "alice" "secret");
    solve [reflexivity | discriminate].
Defined.

Lemma service_never_unauthorized pv hist r :
  status (Mock.routes (Mock.service pv) hist r) <> 401%Z.
Proof.
  unfold Mock.routes, Mock.service, Mock.route.
  repeat match goal with
         | |- context [if ?b then _ else _] => destruct b
         end; discriminate.
Qed.

(** C4 fails as stated: a first invocation succeeds and leaves the client
    with the token [tok-1]; the transport never answers 401; and the second
    invocation posts to [/login] all the same. *)
Lemma second_fetch_logs_in_again :
  run fetch_solar_data Mock.client
  = Returned (PyStr (json_dumps (Some 4) (PyDict Mock.sample_report))) /\
  token (after fetch_solar_data Mock.client) = PyStr "tok-1" /\
  (forall hist r,
     status (respond (session (after fetch_solar_data Mock.client)) hist r) <> 401%Z) /\
  exists json rest,
    recorded (after fetch_solar_data (after fetch_solar_data Mock.client))
    = (recorded (after fetch_solar_data Mock.client)
       ++ POST "https://www.talent-monitoring.com/prod-api/login" json :: rest)%list.
Proof.
  split; [vm_compute; reflexivity|].
  split; [vm_compute; reflexivity|]. split.
  - intros hist r. apply service_never_unauthorized.
  - exists (PyDict [("username", PyStr "alice"); ("password", PyStr "secret")]),
      (map (fun e => get_request e (PyStr "tok-1"))
           [ "system/station/list";
             station_detail_endpoint (PyStr "S-17");
             "tools/device/selectDeviceInverter";
             inverter_detail_endpoint (PyStr "D-4") ]).
    vm_compute; reflexivity.
Qed.

Lemma call_frame s m : frame s (call s m).
Proof.
  destruct m; cbn [call]; unfold after.
  - apply regular_get_credentials.
  - apply regular_login.
  - apply regular_refresh_token.
  - apply regular_get_data.
  - apply regular_fetch_solar_data.
Qed.

(** C9.  The username and the password are those the constructor has
    established, after any sequence of calls of [get_credentials], [login],
    [refresh_token], [get_data] and [fetch_solar_data], whether the calls
    return or raise and whatever the transport answers. *)
Theorem credentials_never_change
    (environ : string -> option string) (u p : option string)
    (http : ClientSession) (json : bool) (life : list method) :
  let s := fold_left call life (__init__ environ u p http json) in
  username s = or_else u (environ "PYTALENT_USERNAME") /\
  password s = or_else p (environ "PYTALENT_PASSWORD").
Proof.
  cbv zeta.
  change (or_else u (environ "PYTALENT_USERNAME"))
    with (username (__init__ environ u p http json)).
  change (or_else p (environ "PYTALENT_PASSWORD"))
    with (password (__init__ environ u p http json)).
  generalize (__init__ environ u p http json) as s0.
  induction life as [|m life IH]; intro s0; cbn [fold_left]; [now split|].
  destruct (IH (call s0 m)) as [Hu Hp].
  destruct (call_frame s0 m) as (Hu' & Hp' & _).
  split; congruence.
Qed.

(** C10.  Two instances with the same username, password, [return_json] and
    token, on transports that answer alike the requests the first run makes,
    give the same run of [fetch_solar_data]: the same value returned or the
    same error raised, the same token held afterwards, the same requests
    made. *)
Theorem fetch_solar_data_deterministic (s1 s2 : TalentSolarMonitor) (made : list request) :
  username s1 = username s2 ->
  password s1 = password s2 ->
  return_json s1 = return_json s2 ->
  token s1 = token s2 ->
  recorded (after fetch_solar_data s1) = (recorded s1 ++ made)%list ->
  (forall before r rest,
     made = (before ++ r :: rest)%list ->
     respond (session s1) (recorded s1 ++ before) r
     = respond (session s2) (recorded s2 ++ before) r) ->
  run fetch_solar_data s2 = run fetch_solar_data s1 /\
  token (after fetch_solar_data s2) = token (after fetch_solar_data s1) /\
  recorded (after fetch_solar_data s2) = (recorded s2 ++ made)%list.
Proof.
  intros Hu Hp Hj Ht Hmade Hagree.
  destruct regular_fetch_solar_data as [_ D].
  destruct (D s1 s2 made) as (Ho & (_ & _ & _ & Ht') & Hc); auto.
  - repeat split; assumption.
Qed.

(** The requests of a run that is known in full, one after the other. *)
Ltac each_request H :=
  let before := lazymatch type of H with _ = (?b ++ _ :: _)%list => b end in
  destruct before as [|? before]; cbn [app] in H;
  [ first [ discriminate H | injection H as <- <-; reflexivity ]
  | first [ discriminate H | injection H as <- H; each_request H ] ].

Lemma fetch_solar_data_deterministic_witness :
  run fetch_solar_data Mock.scripted_client = run fetch_solar_data Mock.client /\
  token (after fetch_solar_data Mock.scripted_client)
  = token (after fetch_solar_data Mock.client) /\
  recorded (after fetch_solar_data Mock.scripted_client)
  = recorded (after fetch_solar_data Mock.client).
Proof.
  refine (fetch_solar_data_deterministic Mock.client Mock.scripted_client
            (recorded (after fetch_solar_data Mock.client))
            eq_refl eq_refl eq_refl eq_refl eq_refl _).
  intros before r rest H.
  let made := eval vm_compute in (recorded (after fetch_solar_data Mock.client)) in
  change (recorded (after fetch_solar_data Mock.client)) with made in H.
  each_request H.
Defined.

(** ** The stages of the fetch on a transport whose answers are known *)

Lemma field_truthy v k x : field v k = Some x -> truthy v = true.
Proof. destruct v as [| | | | | |[|? ?]]; cbn; congruence. Qed.

Lemma field_contains v k x : field v k = Some x -> contains k v = Returned true.
Proof. destruct v; cbn; try discriminate. now intros ->. Qed.

Lemma field_getitem v k x : field v k = Some x -> getitem v (PyStr k) = Returned x.
Proof. destruct v; cbn; try discriminate. now intros ->. Qed.

Lemma getitem_first x l : getitem (PyList (x :: l)) (PyInt 0) = Returned x.
Proof.
  cbn [getitem int_key]. unfold seq_index. cbn [Z.leb Z.compare].
  destruct (0 <? Z.of_nat (List.length (x :: l)))%Z eqn:E; [reflexivity|].
  apply Z.ltb_ge in E. cbn [List.length] in E. lia.
Qed.

Lemma getitem_second x y l : getitem (PyList (x :: y :: l)) (PyInt 1) = Returned y.
Proof.
  cbn [getitem int_key]. unfold seq_index. cbn [Z.leb Z.compare].
  destruct (1 <? Z.of_nat (List.length (x :: y :: l)))%Z eqn:E; [reflexivity|].
  apply Z.ltb_ge in E. cbn [List.length] in E. lia.
Qed.

Lemma getitem_raises v k e : getitem v k = Raised e -> data_shape_error e = true.
Proof.
  unfold getitem. intro H.
  repeat match type of H with
         | match ?x with _ => _ end = _ => destruct x
         end; inversion H; reflexivity.
Qed.

Lemma get_data_served s s' endpoint v :
  respond (session s') = respond (session s) ->
  serves s endpoint (token s') v ->
  get_data endpoint s' = (Returned v, with_calls s' [get_request endpoint (token s')]).
Proof.
  intros Hr Hs. rewrite get_data_eq. cbv zeta. rewrite Hr, !Hs. reflexivity.
Qed.

Lemma dict_json_value d k x :
  forallb (fun kv => json_value (snd kv)) d = true ->
  dict_get d k = Some x -> json_value x = true.
Proof.
  induction d as [|[k' v] d IH]; cbn; [discriminate|].
  intro H. apply andb_true_iff in H as [Hv Hd].
  destruct (k' =? k); [now intros [= <-]|now apply IH].
Qed.

Lemma field_json_value v k x :
  json_value v = true -> field v k = Some x -> json_value x = true.
Proof.
  destruct v; cbn [field]; try discriminate.
  cbn [json_value]. intro H. apply andb_true_iff in H as [_ H].
  now apply dict_json_value.
Qed.

Lemma element_json_value l x :
  json_value (PyList l) = true -> In x l -> json_value x = true.
Proof.
  cbn [json_value]. rewrite forallb_forall. auto.
Qed.

Section Pipeline.

Variable s : TalentSolarMonitor.

(** The instance has credentials and the service accepts them. *)
Variables u p : string.
Hypothesis Husername : username s = Some u.
Hypothesis Hu : u <> EmptyString.
Hypothesis Hpassword : password s = Some p.
Hypothesis Hp : p <> EmptyString.

Variables login_body t : pyval.
Hypothesis Hlogin :
  body (respond (session s) (recorded s) (login_request s)) = Some login_body.
Hypothesis Htoken : field login_body "token" = Some t.

Lemma fetch_after_login (k : coro pyval) :
  (get_credentials ;; await login ;; k) s
  = k (with_token (with_calls s [login_request s]) t).
Proof.
  rewrite bind_eq, get_credentials_eq, Husername, Hpassword, !falsy_str_false by assumption.
  cbv beta iota. cbn [orb]. unfold await. rewrite bind_eq, login_eq. cbv zeta.
  unfold recorded in Hlogin.
  rewrite Hlogin, (field_contains _ _ _ Htoken), (field_getitem _ _ _ Htoken).
  reflexivity.
Qed.

Lemma after_login :
  after login s = with_token (with_calls s [login_request s]) t.
Proof.
  unfold after. rewrite login_eq. cbv zeta. unfold recorded in Hlogin.
  now rewrite Hlogin, (field_contains _ _ _ Htoken), (field_getitem _ _ _ Htoken).
Qed.

(** C7.  On an instance with credentials that the service accepts, when
    [get_data] obtains for the station list a JSON object whose [rows] is the
    empty list or is missing, [fetch_solar_data] returns [None] and raises
    nothing; the requests it has made are the login and the GET of the
    station list (twice when the first was answered 401), and no other. *)
Theorem fetch_solar_data_no_stations (d : list (string * pyval)) :
  run (get_data "system/station/list") (after login s) = Returned (PyDict d) ->
  dict_get d "rows" = None \/ dict_get d "rows" = Some (PyList []) ->
  run fetch_solar_data s = Returned PyNone /\
  exists gets,
    recorded (after fetch_solar_data s) = (recorded s ++ login_request s :: gets)%list /\
    Forall (eq (get_request "system/station/list" t)) gets.
Proof.
  intros Hdata Hrows.
  rewrite after_login in Hdata.
  unfold run, after, recorded in *. unfold fetch_solar_data.
  rewrite fetch_after_login, bind_eq. unfold await.
  destruct (get_data "system/station/list" _) as [o s'] eqn:E.
  cbn [fst] in Hdata. subst o.
  assert (Hcalls : exists gets,
    calls (session s') = (calls (session s) ++ login_request s :: gets)%list /\
    Forall (eq (get_request "system/station/list" t)) gets).
  { rewrite get_data_eq in E. cbv zeta in E.
    cbn [with_token with_calls session respond calls token] in E.
    destruct (status _ =? 401)%Z; inversion E; subst s';
      cbn [with_calls with_token session calls];
      rewrite <- app_assoc; eexists; (split; [reflexivity|]); repeat constructor. }
  rewrite bind_eq.
  match goal with
  | |- context [match ?c s' with _ => _ end] =>
      assert (Hno : c s' = (Returned false, s'))
  end.
  { destruct d as [|kv d']; [reflexivity|].
    assert (Ht : truthy (PyDict (kv :: d')) = true) by reflexivity.
    rewrite Ht. clear Ht E. remember (kv :: d') as D eqn:HD. clear HD.
    destruct Hrows as [H|H]; cbn [contains getitem bind lift ret]; rewrite ?H; reflexivity. }
  rewrite Hno. cbn [fst snd ret]. auto.
Qed.

(** The station list has a first row with the three fields that are read. *)
Variables stations row status stationName powerStationGuid : pyval.
Variable more_rows : list pyval.
Hypothesis Hstations : serves s "system/station/list" t stations.
Hypothesis Hrows : field stations "rows" = Some (PyList (row :: more_rows)).
Hypothesis Hstatus : field row "status" = Some status.
Hypothesis HstationName : field row "stationName" = Some stationName.
Hypothesis HpowerStationGuid : field row "powerStationGuid" = Some powerStationGuid.

(** The station detail has the four energy fields under [data]. *)
Variables detail power_data totalActivePower dayEnergy monthEnergy yearEnergy : pyval.
Hypothesis Hdetail : serves s (station_detail_endpoint powerStationGuid) t detail.
Hypothesis Hpower_data : field detail "data" = Some power_data.
Hypothesis HtotalActivePower : field power_data "totalActivePower" = Some totalActivePower.
Hypothesis HdayEnergy : field power_data "dayEnergy" = Some dayEnergy.
Hypothesis HmonthEnergy : field power_data "monthEnergy" = Some monthEnergy.
Hypothesis HyearEnergy : field power_data "yearEnergy" = Some yearEnergy.

(** The inverter list has a first row with [deviceGuid]. *)
Variables inverters inverter deviceGuid : pyval.
Variable more_inverters : list pyval.
Hypothesis Hinverters : serves s "tools/device/selectDeviceInverter" t inverters.
Hypothesis Hinverter : field inverters "rows" = Some (PyList (inverter :: more_inverters)).
Hypothesis HdeviceGuid : field inverter "deviceGuid" = Some deviceGuid.

(** The inverter detail has a list [pv] under [data]. *)
Variables info info_data : pyval.
Variable pv : list pyval.
Hypothesis Hinfo : serves s (inverter_detail_endpoint deviceGuid) t info.
Hypothesis Hinfo_data : field info "data" = Some info_data.
Hypothesis Hpv : field info_data "pv" = Some (PyList pv).

Ltac served :=
  match goal with
  | |- context [get_data ?e ?s'] =>
      erewrite (get_data_served s s' e _ eq_refl)
        by (cbn [with_token with_calls token]; eassumption)
  end;
  cbn [with_token with_calls token session calls respond username password return_json];
  cbv beta iota.

Ltac read H :=
  rewrite ?(field_truthy _ _ _ H), ?(field_contains _ _ _ H), ?(field_getitem _ _ _ H);
  cbv beta iota.

(** The fetch is run up to the point where [pv] has been read. *)
Ltac up_to_panels :=
  unfold fetch_solar_data; rewrite fetch_after_login;
  cbv beta iota delta [bind lift ret local await];
  served; read Hrows; cbn [len List.length Z.of_nat Z.ltb Z.compare]; cbv beta iota;
  rewrite getitem_first;
  read Hstatus; read HstationName; read HpowerStationGuid;
  fold (station_detail_endpoint powerStationGuid);
  served; read Hpower_data; read HtotalActivePower; read HdayEnergy;
  read HmonthEnergy; read HyearEnergy;
  served; read Hinverter; rewrite getitem_first; read HdeviceGuid;
  fold (inverter_detail_endpoint deviceGuid);
  served; read Hinfo_data; read Hpv.

Variables pv1 pv2 : pyval.
Variables pv1Voltage pv1Current pv1Power pv2Voltage pv2Current pv2Power : pyval.

(** C2, as the code has it.  On a transport that serves a station list with
    a first row carrying [status], [stationName] and [powerStationGuid], a
    station detail with the four energy fields under [data], an inverter list
    with a first row carrying [deviceGuid], and an inverter detail whose [pv]
    has exactly two entries, each carrying [voltage], [current] and [power],
    all of them bodies decoded from JSON, [fetch_solar_data] in JSON mode
    returns the text that [json.dumps] with [indent=4] writes for the report,
    and [json.loads] reads from that text an object with exactly 12 keys:
    the keys of the report in the order the code writes them, each with the
    value served for it. *)
Theorem fetch_solar_data_json_report :
  return_json s = true ->
  json_value stations = true ->
  json_value detail = true ->
  json_value info = true ->
  pv = [pv1; pv2] ->
  field pv1 "voltage" = Some pv1Voltage ->
  field pv1 "current" = Some pv1Current ->
  field pv1 "power" = Some pv1Power ->
  field pv2 "voltage" = Some pv2Voltage ->
  field pv2 "current" = Some pv2Current ->
  field pv2 "power" = Some pv2Power ->
  let result :=
    [ ("Status", status);
      ("StationName", stationName);
      ("TotalActivePower(W)", totalActivePower);
      ("DailyEnergy(Wh)", dayEnergy);
      ("MonthlyEnergy(Wh)", monthEnergy);
      ("YearlyEnergy(Wh)", yearEnergy);
      ("Panel1Voltage(V)", pv1Voltage);
      ("Panel1Current(A)", pv1Current);
      ("Panel1Power(W)", pv1Power);
      ("Panel2Voltage(V)", pv2Voltage);
      ("Panel2Current(A)", pv2Current);
      ("Panel2Power(W)", pv2Power) ] in
  exists text,
    run fetch_solar_data s = Returned (PyStr text) /\
    text = json_dumps (Some 4) (PyDict result) /\
    json_loads text = Some (PyDict result) /\
    List.length result = 12.
Proof.
  intros Hjson Jstations Jdetail Jinfo Hpv2 Hv1 Hc1 Hp1 Hv2 Hc2 Hp2 result.
  exists (json_dumps (Some 4) (PyDict result)).
  split; [|split; [reflexivity|split; [|reflexivity]]].
  - unfold run. subst pv. up_to_panels.
    rewrite !getitem_first, !getitem_second.
    read Hv1. read Hc1. read Hp1. read Hv2. read Hc2. read Hp2.
    unfold self_return_json.
    match goal with
    | |- context [return_json ?x] => change (return_json x) with (return_json s)
    end.
    rewrite Hjson. reflexivity.
  - apply json_loads_dumps. subst pv.
    pose proof (field_json_value _ _ _ Jstations Hrows) as Jrows.
    pose proof (element_json_value _ row Jrows (or_introl eq_refl)) as Jrow.
    pose proof (field_json_value _ _ _ Jdetail Hpower_data) as Jpower.
    pose proof (field_json_value _ _ _ Jinfo Hinfo_data) as Jdata.
    pose proof (field_json_value _ _ _ Jdata Hpv) as Jpv.
    pose proof (element_json_value _ pv1 Jpv (or_introl eq_refl)) as Jpv1.
    pose proof (element_json_value _ pv2 Jpv (or_intror (or_introl eq_refl))) as Jpv2.
    unfold result. cbn [json_value map fst snd forallb].
    rewrite (field_json_value _ _ _ Jrow Hstatus),
      (field_json_value _ _ _ Jrow HstationName),
      (field_json_value _ _ _ Jpower HtotalActivePower),
      (field_json_value _ _ _ Jpower HdayEnergy),
      (field_json_value _ _ _ Jpower HmonthEnergy),
      (field_json_value _ _ _ Jpower HyearEnergy),
      (field_json_value _ _ _ Jpv1 Hv1), (field_json_value _ _ _ Jpv1 Hc1),
      (field_json_value _ _ _ Jpv1 Hp1), (field_json_value _ _ _ Jpv2 Hv2),
      (field_json_value _ _ _ Jpv2 Hc2), (field_json_value _ _ _ Jpv2 Hp2).
    reflexivity.
Qed.

(** C5.  With all the stages before it served as above, an inverter detail
    whose [pv] has fewer than two entries makes [fetch_solar_data] raise one
    of the data-shape errors, and return no report; when the entries that
    are there carry their three fields, the error is [IndexError]. *)
Theorem fetch_solar_data_short_pv :
  List.length pv < 2 ->
  (exists e, run fetch_solar_data s = Raised e /\ data_shape_error e = true) /\
  (Forall (fun x => exists v c w, field x "voltage" = Some v /\
                                  field x "current" = Some c /\
                                  field x "power" = Some w) pv ->
   run fetch_solar_data s = Raised IndexError).
Proof.
  intro Hshort. unfold run.
  destruct pv as [|x [|y l]]; [| |cbn in Hshort; lia]; up_to_panels.
  - split; [exists IndexError|]; auto.
  - rewrite !getitem_first. split.
    + destruct (getitem x (PyStr "voltage")) eqn:E1;
        [|eexists; split; [reflexivity|eapply getitem_raises; eassumption]].
      destruct (getitem x (PyStr "current")) eqn:E2;
        [|eexists; split; [reflexivity|eapply getitem_raises; eassumption]].
      destruct (getitem x (PyStr "power")) eqn:E3;
        [|eexists; split; [reflexivity|eapply getitem_raises; eassumption]].
      exists IndexError. auto.
    + intro Hall. inversion Hall as [|? ? (v & c & w & Hv & Hc & Hw) _]; subst.
      read Hv. read Hc. read Hw. reflexivity.
Qed.

(** *** Further properties of the fetch on such a transport *)

(** The fetch is run up to the point where the inverter detail has been
    obtained. *)
Ltac up_to_info :=
  unfold fetch_solar_data; rewrite fetch_after_login;
  cbv beta iota delta [bind lift ret local await];
  served; read Hrows; cbn [len List.length Z.of_nat Z.ltb Z.compare]; cbv beta iota;
  rewrite getitem_first;
  read Hstatus; read HstationName; read HpowerStationGuid;
  fold (station_detail_endpoint powerStationGuid);
  served; read Hpower_data; read HtotalActivePower; read HdayEnergy;
  read HmonthEnergy; read HyearEnergy;
  served; read Hinverter; rewrite getitem_first; read HdeviceGuid;
  fold (inverter_detail_endpoint deviceGuid);
  served.

(** X14.  When the four stages are served, the fetch makes five requests
    and no more, in this order: the login, then the GETs of the station
    list, of the detail of the first station, of the inverter list and of the
    detail of the first inverter, each GET carrying the token of this login.
    That token is the one held afterwards.  This is so whatever the inverter
    detail contains, and whether the fetch then returns or raises. *)
Theorem fetch_solar_data_requests :
  recorded (after fetch_solar_data s)
  = (recorded s ++
     [ login_request s;
       get_request "system/station/list" t;
       get_request (station_detail_endpoint powerStationGuid) t;
       get_request "tools/device/selectDeviceInverter" t;
       get_request (inverter_detail_endpoint deviceGuid) t ])%list /\
  token (after fetch_solar_data s) = t.
Proof.
  unfold recorded, after. up_to_info. unfold self_return_json.
  destruct (truthy info);
    repeat match goal with
      | |- context [match getitem ?a ?b with _ => _ end] => destruct (getitem a b)
      end;
    try match goal with
      | |- context [if return_json ?x then _ else _] => destruct (return_json x)
      end;
    cbv beta iota delta [raise];
    cbn [snd session calls token with_calls with_token]; rewrite <- ?app_assoc;
    split; reflexivity.
Qed.

Variable more_pv : list pyval.

(** X15.  Only the first station, the first inverter and the first two
    panels are reported: with further rows in the two lists and further
    entries in [pv], the fetch in JSON mode returns the text of the same
    report. *)
Theorem fetch_solar_data_reports_first_entries :
  return_json s = true ->
  pv = pv1 :: pv2 :: more_pv ->
  field pv1 "voltage" = Some pv1Voltage ->
  field pv1 "current" = Some pv1Current ->
  field pv1 "power" = Some pv1Power ->
  field pv2 "voltage" = Some pv2Voltage ->
  field pv2 "current" = Some pv2Current ->
  field pv2 "power" = Some pv2Power ->
  run fetch_solar_data s =
    Returned (PyStr (json_dumps (Some 4) (PyDict
      [ ("Status", status);
        ("StationName", stationName);
        ("TotalActivePower(W)", totalActivePower);
        ("DailyEnergy(Wh)", dayEnergy);
        ("MonthlyEnergy(Wh)", monthEnergy);
        ("YearlyEnergy(Wh)", yearEnergy);
        ("Panel1Voltage(V)", pv1Voltage);
        ("Panel1Current(A)", pv1Current);
        ("Panel1Power(W)", pv1Power);
        ("Panel2Voltage(V)", pv2Voltage);
        ("Panel2Current(A)", pv2Current);
        ("Panel2Power(W)", pv2Power) ]))).
Proof.
  intros Hjson Hpv2 Hv1 Hc1 Hp1 Hv2 Hc2 Hp2.
  unfold run. subst pv. up_to_panels.
  rewrite !getitem_first, !getitem_second.
  read Hv1. read Hc1. read Hp1. read Hv2. read Hc2. read Hp2.
  unfold self_return_json.
  match goal with
  | |- context [return_json ?x] => change (return_json x) with (return_json s)
  end.
  rewrite Hjson. reflexivity.
Qed.

(** X16.  In log mode the same fetch returns [None]: the report is built
    and then dropped. *)
Theorem fetch_solar_data_log_mode :
  return_json s = false ->
  pv = pv1 :: pv2 :: more_pv ->
  field pv1 "voltage" = Some pv1Voltage ->
  field pv1 "current" = Some pv1Current ->
  field pv1 "power" = Some pv1Power ->
  field pv2 "voltage" = Some pv2Voltage ->
  field pv2 "current" = Some pv2Current ->
  field pv2 "power" = Some pv2Power ->
  run fetch_solar_data s = Returned PyNone.
Proof.
  intros Hjson Hpv2 Hv1 Hc1 Hp1 Hv2 Hc2 Hp2.
  unfold run. subst pv. up_to_panels.
  rewrite !getitem_first, !getitem_second.
  read Hv1. read Hc1. read Hp1. read Hv2. read Hc2. read Hp2.
  unfold self_return_json.
  match goal with
  | |- context [return_json ?x] => change (return_json x) with (return_json s)
  end.
  rewrite Hjson. reflexivity.
Qed.

End Pipeline.

(** ** The claims on the sample service *)

Lemma fetch_solar_data_no_stations_witness :
  run fetch_solar_data
      Mock.client_without_stations
  = Returned PyNone /\
  exists gets,
    recorded (after fetch_solar_data
      Mock.client_without_stations)
    = POST (BASE_URL ++ "/login")
           (PyDict [("username", PyStr "alice"); ("password", PyStr "secret")]) :: gets /\
    Forall (eq (get_request "system/station/list" (PyStr "tok-1"))) gets.
Proof.
  refine (fetch_solar_data_no_stations Mock.client_without_stations
            "alice" "secret" eq_refl _ eq_refl _
            Mock.login_body (PyStr "tok-1") eq_refl eq_refl
            [("total", PyInt 0); ("rows", PyList [])] eq_refl (or_intror eq_refl));
    discriminate.
Defined.

Lemma fetch_solar_data_json_report_witness :
  exists text,
    run fetch_solar_data Mock.client = Returned (PyStr text) /\
    text = json_dumps (Some 4) (PyDict Mock.sample_report) /\
    json_loads text = Some (PyDict Mock.sample_report) /\
    List.length Mock.sample_report = 12.
Proof.
  refine (fetch_solar_data_json_report Mock.client
            "alice" "secret" eq_refl _ eq_refl _
            Mock.login_body (PyStr "tok-1") eq_refl eq_refl
            Mock.station_list _ (PyStr "ready") (PyStr "Roof") (PyStr "S-17") []
            (fun _ => eq_refl) eq_refl eq_refl eq_refl eq_refl
            Mock.station_detail _ (PyFloat "512.5") (PyFloat "1.2") (PyFloat "30.5") (PyInt 400)
            (fun _ => eq_refl) eq_refl eq_refl eq_refl eq_refl eq_refl
            Mock.inverter_list _ (PyStr "D-4") []
            (fun _ => eq_refl) eq_refl eq_refl
            (Mock.inverter_detail Mock.two_panels) _ Mock.two_panels
            (fun _ => eq_refl) eq_refl eq_refl
            (Mock.panel "35.1" "7.2" "252.7") (Mock.panel "34.8" "7.4" "257.5")
            (PyFloat "35.1") (PyFloat "7.2") (PyFloat "252.7")
            (PyFloat "34.8") (PyFloat "7.4") (PyFloat "257.5")
            eq_refl eq_refl eq_refl eq_refl
            eq_refl eq_refl eq_refl eq_refl eq_refl eq_refl eq_refl);
    discriminate.
Defined.

(** C2 fails as stated: on the sample service the text that
    [fetch_solar_data] returns decodes to an object with 12 keys, not 11. *)
Lemma report_has_twelve_keys :
  exists text d,
    run fetch_solar_data Mock.client = Returned (PyStr text) /\
    json_loads text = Some (PyDict d) /\
    map fst d
    = [ "Status"; "StationName"; "TotalActivePower(W)"; "DailyEnergy(Wh)";
        "MonthlyEnergy(Wh)"; "YearlyEnergy(Wh)"; "Panel1Voltage(V)";
        "Panel1Current(A)"; "Panel1Power(W)"; "Panel2Voltage(V)";
        "Panel2Current(A)"; "Panel2Power(W)" ] /\
    List.length d = 12 /\
    List.length d <> 11.
Proof.
  exists (json_dumps (Some 4) (PyDict Mock.sample_report)), Mock.sample_report.
  repeat split; try (vm_compute; reflexivity).
  vm_compute. discriminate.
Qed.

Lemma fetch_solar_data_short_pv_witness :
  (exists e,
     run fetch_solar_data Mock.client_one_panel = Raised e /\ data_shape_error e = true) /\
  (Forall (fun x => exists v c w, field x "voltage" = Some v /\
                                  field x "current" = Some c /\
                                  field x "power" = Some w)
          [Mock.panel "35.1" "7.2" "252.7"] ->
   run fetch_solar_data Mock.client_one_panel = Raised IndexError).
Proof.
  refine (fetch_solar_data_short_pv Mock.client_one_panel
            "alice" "secret" eq_refl _ eq_refl _
            Mock.login_body (PyStr "tok-1") eq_refl eq_refl
            Mock.station_list _ (PyStr "ready") (PyStr "Roof") (PyStr "S-17") []
            (fun _ => eq_refl) eq_refl eq_refl eq_refl eq_refl
            Mock.station_detail _ (PyFloat "512.5") (PyFloat "1.2") (PyFloat "30.5") (PyInt 400)
            (fun _ => eq_refl) eq_refl eq_refl eq_refl eq_refl eq_refl
            Mock.inverter_list _ (PyStr "D-4") []
            (fun _ => eq_refl) eq_refl eq_refl
            (Mock.inverter_detail [Mock.panel "35.1" "7.2" "252.7"]) _
            [Mock.panel "35.1" "7.2" "252.7"]
            (fun _ => eq_refl) eq_refl eq_refl _);
    solve [discriminate | cbn; lia].
Defined.

(** C3 on two services that fail softly.  When the station detail is
    answered 500, the later stages still run, and the assembly then reads a
    local variable that was never bound: the fetch ends in
    [UnboundLocalError], which is no data-shape error.  When the inverter
    list is answered 500, the same fault occurs while the next URL is built,
    and the inverter detail is never requested. *)
Theorem unset_fields_fault_on_reference :
  (run fetch_solar_data Mock.client_without_detail
   = Raised (UnboundLocalError "totalActivePower") /\
   map request_url (recorded (after fetch_solar_data Mock.client_without_detail))
   = [ BASE_URL ++ "/login";
       BASE_URL ++ "/system/station/list";
       Mock.station_detail_url;
       BASE_URL ++ "/tools/device/selectDeviceInverter";
       Mock.inverter_detail_url ]) /\
  (run fetch_solar_data Mock.client_without_inverters
   = Raised (UnboundLocalError "deviceGuid") /\
   map request_url (recorded (after fetch_solar_data Mock.client_without_inverters))
   = [ BASE_URL ++ "/login";
       BASE_URL ++ "/system/station/list";
       Mock.station_detail_url;
       BASE_URL ++ "/tools/device/selectDeviceInverter" ]) /\
  data_shape_error (UnboundLocalError "totalActivePower") = false /\
  data_shape_error (UnboundLocalError "deviceGuid") = false.
Proof.
  repeat split; vm_compute; reflexivity.
Qed.

(** * Further properties *)

(** ** The constructor and the credentials *)

(** X1.  On a freshly built instance, [get_credentials] passes exactly when
    each of the two credentials is given as an argument or, failing that, in
    the environment ([PYTALENT_USERNAME], [PYTALENT_PASSWORD]); an empty
    string counts as not given, in either place.  Otherwise it raises the
    [ValueError]. *)
Theorem credentials_from_arguments_or_environment
    (environ : string -> option string) (u p : option string)
    (http : ClientSession) (json : bool) :
  run get_credentials (__init__ environ u p http json) =
    if (given u || given (environ "PYTALENT_USERNAME"))
       && (given p || given (environ "PYTALENT_PASSWORD"))
    then Returned tt
    else Raised credentials_error.
Proof.
  unfold run. rewrite get_credentials_eq.
  cbn [fst __init__ username password]. unfold given, falsy_str, or_else.
  destruct u as [[|? ?]|], (environ "PYTALENT_USERNAME") as [[|? ?]|],
    p as [[|? ?]|], (environ "PYTALENT_PASSWORD") as [[|? ?]|]; reflexivity.
Qed.

(** ** [login] *)

(** X2.  Whatever the service answers, [login] makes exactly one request,
    the POST of the credentials.  When it raises, the held token is the one
    held before; when it returns, the body was decoded and the held token is
    what the body has at ["token"]. *)
Theorem login_posts_once_and_keeps_token_on_failure (s : TalentSolarMonitor) :
  recorded (after login s) = (recorded s ++ [login_request s])%list /\
  (forall e, run login s = Raised e -> token (after login s) = token s) /\
  (run login s = Returned tt ->
   exists v,
     body (respond (session s) (recorded s) (login_request s)) = Some v /\
     getitem v (PyStr "token") = Returned (token (after login s))).
Proof.
  unfold run, after, recorded. rewrite login_eq. cbv zeta.
  destruct (body _) as [v|].
  - destruct (contains "token" v) as [[|]|e'];
      [destruct (getitem v (PyStr "token")) as [t|e'] eqn:E| |];
      cbn [fst snd with_token with_calls session calls token];
      (split; [reflexivity|split; [intros e0 H; try discriminate H; reflexivity|]]);
      try (intro H; discriminate H).
    intros _. exists v. auto.
  - cbn. split; [reflexivity|split; [reflexivity|discriminate]].
Qed.

(** X3.  What [login] does is decided by the shape of the body.  A body
    that cannot be decoded as JSON raises the error of [response.json()].
    An object returns when it has a ["token"] key and raises
    [AuthenticationError] when it has none.  [null], a boolean or a number
    raises [TypeError] (the test [in] fails).  A list with the element
    ["token"], or a string that contains [token], raises [TypeError] too (it
    cannot be indexed by a string); any other list or string raises
    [AuthenticationError]. *)
Theorem login_outcome_by_body (s : TalentSolarMonitor) :
  run login s =
    match body (respond (session s) (recorded s) (login_request s)) with
    | None => Raised ContentTypeError
    | Some (PyDict d) =>
        match dict_get d "token" with
        | Some _ => Returned tt
        | None => Raised (AuthenticationError "Authentication failed")
        end
    | Some (PyList l) =>
        if existsb (is_str "token") l then Raised TypeError
        else Raised (AuthenticationError "Authentication failed")
    | Some (PyStr x) =>
        if is_substring "token" x then Raised TypeError
        else Raised (AuthenticationError "Authentication failed")
    | Some (PyNone | PyBool _ | PyInt _ | PyFloat _) => Raised TypeError
    end.
Proof.
  unfold run, recorded. rewrite login_eq. cbv zeta.
  destruct (body _) as [[| | | |x|l|d]|]; cbn [contains getitem int_key fst];
    try reflexivity.
  - now destruct (is_substring "token" x).
  - now destruct (existsb (is_str "token") l).
  - now destruct (dict_get d "token").
Qed.

(** ** [get_data] *)

Lemma get_data_calls endpoint s :
  exists n, (n = 1 \/ n = 2) /\
    snd (get_data endpoint s)
    = with_calls s (repeat (get_request endpoint (token s)) n).
Proof.
  rewrite get_data_eq. cbv zeta.
  destruct (status _ =? 401)%Z; [exists 2|exists 1]; cbn [snd repeat]; auto.
Qed.

(** X4.  [get_data] never logs in and never refreshes the token: whatever
    token is held, even none, and whatever the service answers, all it does
    to the instance is to have the transport record one GET of the endpoint,
    or the same GET twice; credentials, mode and token are as before. *)
Theorem get_data_only_gets (endpoint : string) (s : TalentSolarMonitor) :
  exists n, (n = 1 \/ n = 2) /\
    after (get_data endpoint) s
    = with_calls s (repeat (get_request endpoint (token s)) n).
Proof.
  unfold after. rewrite get_data_eq. cbv zeta.
  destruct (status _ =? 401)%Z; [exists 2|exists 1]; cbn [snd repeat]; auto.
Qed.

(** X5.  A first answer with a status other than 200 and 401 makes
    [get_data] return [None] after that one request: no retry, no error,
    whatever the body. *)
Theorem get_data_other_status (endpoint : string) (s : TalentSolarMonitor) :
  let req := get_request endpoint (token s) in
  status (respond (session s) (recorded s) req) <> 200%Z ->
  status (respond (session s) (recorded s) req) <> 401%Z ->
  run (get_data endpoint) s = Returned PyNone /\
  recorded (after (get_data endpoint) s) = (recorded s ++ [req])%list.
Proof.
  cbv zeta. unfold run, after, recorded. intros H200 H401.
  rewrite get_data_eq. cbv zeta. unfold data_of.
  apply Z.eqb_neq in H200, H401. rewrite H401, H200. auto.
Qed.

Lemma get_data_other_status_witness :
  run (get_data "system/station/list") (Sample.holder Mock.server_error) = Returned PyNone /\
  recorded (after (get_data "system/station/list") (Sample.holder Mock.server_error))
  = [get_request "system/station/list" (PyStr "tok-1")].
Proof.
  apply (get_data_other_status "system/station/list" (Sample.holder Mock.server_error));
    vm_compute; discriminate.
Defined.

(** X6.  Once the transport has answered, the only error [get_data]
    raises is the one of [response.json()], and only when an answer with
    status 200 has a body that cannot be decoded: a rejected token or a
    failing status never shows as an exception. *)
Theorem get_data_raises_only_on_undecodable_body
    (endpoint : string) (s : TalentSolarMonitor) (e : exn) :
  run (get_data endpoint) s = Raised e ->
  e = ContentTypeError /\
  exists hist,
    let r := respond (session s) hist (get_request endpoint (token s)) in
    status r = 200%Z /\ body r = None.
Proof.
  unfold run. rewrite get_data_eq. cbv zeta. unfold data_of.
  destruct (status _ =? 401)%Z; cbn [fst];
    match goal with
    | |- (if (status (respond _ ?h _) =? 200)%Z then _ else _) = _ -> _ =>
        destruct (status (respond _ h _) =? 200)%Z eqn:E; [|discriminate];
        destruct (body (respond _ h _)) eqn:B; [discriminate|];
        intros [= <-]; split; [reflexivity|];
        exists h; split; [now apply Z.eqb_eq|assumption]
    end.
Qed.

Lemma get_data_raises_only_on_undecodable_body_witness :
  ContentTypeError = ContentTypeError /\
  exists hist,
    let r := respond (session (Sample.holder (mkResponse 200 None))) hist
               (get_request "system/station/list" (PyStr "tok-1")) in
    status r = 200%Z /\ body r = None.
Proof.
  exact (get_data_raises_only_on_undecodable_body "system/station/list"
           (Sample.holder (mkResponse 200 None)) ContentTypeError eq_refl).
Defined.

(** X7.  On an instance that has not logged in, [get_data] sends the header
    [Authorization: Bearer None] (once, or twice after a 401) and nothing
    else; the instance still holds no token afterwards. *)
Theorem get_data_before_login
    (environ : string -> option string) (u p : option string)
    (http : ClientSession) (json : bool) (endpoint : string) :
  let s := __init__ environ u p http json in
  let req := GET (BASE_URL ++ "/" ++ endpoint) [("Authorization", "Bearer None")] in
  token (after (get_data endpoint) s) = PyNone /\
  (recorded (after (get_data endpoint) s) = (calls http ++ [req])%list \/
   recorded (after (get_data endpoint) s) = (calls http ++ [req; req])%list).
Proof.
  cbv zeta. unfold after, recorded.
  destruct (get_data_calls endpoint (__init__ environ u p http json))
    as (n & [-> | ->] & ->); cbn; auto.
Qed.

(** ** What a fetch does to the instance, whatever the service answers *)

Lemma with_calls_nil s : with_calls s [] = s.
Proof.
  destruct s as [u p [r c] j t]. unfold with_calls. cbn. now rewrite app_nil_r.
Qed.

Lemma with_calls_app s l1 l2 :
  with_calls (with_calls s l1) l2 = with_calls s (l1 ++ l2).
Proof. unfold with_calls. cbn. now rewrite app_assoc. Qed.

Lemma gets_pure {A} (c : coro A) n :
  (forall s, snd (c s) = s) -> gets_at_most n c.
Proof.
  intros H s. exists []. rewrite H, with_calls_nil. cbn. repeat split; lia.
Qed.

Lemma gets_ret {A} (a : A) n : gets_at_most n (ret a).
Proof. now apply gets_pure. Qed.

Lemma gets_lift {A} (o : outcome A) n : gets_at_most n (lift o).
Proof. now apply gets_pure. Qed.

Lemma gets_local name v n : gets_at_most n (local name v).
Proof. apply gets_pure. now destruct v. Qed.

Lemma gets_self_return_json n : gets_at_most n self_return_json.
Proof. now apply gets_pure. Qed.

Lemma gets_bind {A B} (c : coro A) (k : A -> coro B) n m :
  gets_at_most n c -> (forall a, gets_at_most m (k a)) ->
  gets_at_most (n + m) (bind c k).
Proof.
  intros Hc Hk s. destruct (Hc s) as (g1 & E1 & G1 & L1).
  unfold bind. destruct (c s) as [[a|e] s1]; cbn [snd] in E1; subst s1.
  - destruct (Hk a (with_calls s g1)) as (g2 & E2 & G2 & L2).
    exists (g1 ++ g2)%list. rewrite E2, with_calls_app, forallb_app, G1, G2, length_app.
    repeat split; lia.
  - exists g1. repeat split; [assumption|lia].
Qed.

Lemma gets_get_data endpoint : gets_at_most 2 (get_data endpoint).
Proof.
  intro s. destruct (get_data_calls endpoint s) as (n & Hn & ->).
  eexists. split; [reflexivity|].
  destruct Hn as [-> | ->]; cbn; split; auto.
Qed.

Lemma gets_then {A B} (c : coro A) (k : A -> coro B) m :
  gets_at_most 0 c -> (forall a, gets_at_most m (k a)) -> gets_at_most m (bind c k).
Proof. exact (gets_bind c k 0 m). Qed.

Lemma gets_after_get_data {B} endpoint (k : pyval -> coro B) m :
  (forall a, gets_at_most m (k a)) ->
  gets_at_most (S (S m)) (bind (await (get_data endpoint)) k).
Proof. intro Hk. exact (gets_bind _ k 2 m (gets_get_data endpoint) Hk). Qed.

Ltac gets_step :=
  match goal with
  | |- gets_at_most _ (bind (await (get_data _)) _) => apply gets_after_get_data; intro
  | |- gets_at_most _ (bind _ _) => apply gets_then; [|intro]
  | |- gets_at_most _ (ret _) => apply gets_ret
  | |- gets_at_most _ (lift _) => apply gets_lift
  | |- gets_at_most _ (local _ _) => apply gets_local
  | |- gets_at_most _ self_return_json => apply gets_self_return_json
  | |- gets_at_most _ (let _ := _ in _) => cbv zeta
  | |- gets_at_most _ (if ?b then _ else _) => destruct b
  | |- gets_at_most _ (match ?x with _ => _ end) => destruct x
  end.

(** All that follows the login in [fetch_solar_data]. *)
Lemma fetch_solar_data_after_login :
  exists k : coro pyval,
    fetch_solar_data = (get_credentials ;; await login ;; k) /\
    gets_at_most 8 k.
Proof.
  eexists. split; [reflexivity|]. repeat gets_step.
Qed.

Lemma fetch_after_credentials (s : TalentSolarMonitor) :
  given (username s) = true ->
  given (password s) = true ->
  exists gets,
    snd (fetch_solar_data s) = with_calls (snd (login s)) gets /\
    forallb is_get gets = true /\
    List.length gets <= 8.
Proof.
  intros Hu Hp.
  destruct fetch_solar_data_after_login as (k & -> & Hk).
  rewrite bind_eq, get_credentials_eq.
  unfold given in Hu, Hp. unfold falsy_str. rewrite Hu, Hp. cbn [negb orb].
  rewrite bind_eq. unfold await.
  destruct (login s) as [[[]|e] s1]; cbn [snd].
  - apply Hk.
  - exists []. rewrite with_calls_nil. cbn. repeat split; lia.
Qed.

(** X8.  On an instance with credentials, [fetch_solar_data] logs in
    exactly once, whatever the service answers: its first request is the
    POST of the credentials, and all the requests after it, eight at most,
    are GETs.  The token held afterwards is the one held after that login:
    a token that the service rejects during the fetch is never renewed. *)
Theorem fetch_solar_data_logs_in_once (s : TalentSolarMonitor) :
  given (username s) = true ->
  given (password s) = true ->
  exists gets,
    recorded (after fetch_solar_data s) = (recorded s ++ login_request s :: gets)%list /\
    forallb is_get gets = true /\
    List.length gets <= 8 /\
    token (after fetch_solar_data s) = token (after login s).
Proof.
  intros Hu Hp.
  destruct (fetch_after_credentials s Hu Hp) as (gets & E & Hg & Hn).
  pose proof (login_recorded s) as Hl.
  exists gets. unfold after, recorded in *. rewrite E.
  cbn [with_calls session calls token]. rewrite Hl, <- app_assoc. auto.
Qed.

Lemma fetch_solar_data_logs_in_once_witness :
  exists gets,
    recorded (after fetch_solar_data Sample.client_never_authorized)
    = ([] ++ login_request Sample.client_never_authorized :: gets)%list /\
    forallb is_get gets = true /\
    List.length gets <= 8 /\
    token (after fetch_solar_data Sample.client_never_authorized)
    = token (after login Sample.client_never_authorized).
Proof.
  exact (fetch_solar_data_logs_in_once Sample.client_never_authorized eq_refl eq_refl).
Defined.

(** ** What a fetch returns, whatever the service answers *)

Lemma reports_none : reports (ret PyNone).
Proof. intros s v [= <-]. now left. Qed.

Lemma reports_dump d :
  map fst d = report_keys ->
  reports (return_json <- self_return_json ;;
           if return_json then ret (PyStr (json_dumps (Some 4) (PyDict d)))
           else ret PyNone).
Proof.
  intros Hd s v. unfold bind, self_return_json.
  destruct (return_json s); cbn; intros [= <-]; [right|left]; eauto.
Qed.

Lemma reports_bind {A} (c : coro A) (k : A -> coro pyval) :
  regular c -> (forall a, reports (k a)) -> reports (bind c k).
Proof.
  intros [Fc _] Hk s v. unfold bind.
  destruct (Fc s) as (_ & _ & Hj & _).
  destruct (c s) as [[a|e] s1]; cbn [snd] in Hj; [|discriminate].
  intro H. rewrite <- Hj. now apply (Hk a).
Qed.

Ltac reports_step :=
  match goal with
  | |- reports (bind self_return_json _) => apply reports_dump; reflexivity
  | |- reports (bind _ _) => apply reports_bind; [repeat regular_step|intro]
  | |- reports (ret PyNone) => apply reports_none
  | |- reports (let _ := _ in _) => cbv zeta
  | |- reports (if ?b then _ else _) => destruct b
  | |- reports (match ?x with _ => _ end) => destruct x
  end.

Lemma reports_fetch_solar_data : reports fetch_solar_data.
Proof.
  unfold fetch_solar_data. repeat reports_step.
Qed.

(** X9.  Whatever the service answers, a value that [fetch_solar_data]
    returns is either [None] or, in JSON mode only, the text that
    [json.dumps] with [indent=4] writes for an object with the twelve keys of
    the report in their order.  In log mode it returns nothing but [None]. *)
Theorem fetch_solar_data_returns_none_or_report (s : TalentSolarMonitor) (v : pyval) :
  run fetch_solar_data s = Returned v ->
  v = PyNone \/
  (return_json s = true /\
   exists d, map fst d = report_keys /\ v = PyStr (json_dumps (Some 4) (PyDict d))).
Proof.
  intro H. destruct (reports_fetch_solar_data s v H) as [-> | (Hj & d & Hd & ->)].
  - now left.
  - right. split; [assumption|]. now exists d.
Qed.

Lemma fetch_solar_data_returns_none_or_report_witness :
  PyStr (json_dumps (Some 4) (PyDict Mock.sample_report)) = PyNone \/
  (return_json Mock.client = true /\
   exists d, map fst d = report_keys /\
     PyStr (json_dumps (Some 4) (PyDict Mock.sample_report))
     = PyStr (json_dumps (Some 4) (PyDict d))).
Proof.
  apply (fetch_solar_data_returns_none_or_report Mock.client).
  vm_compute. reflexivity.
Defined.

(** ** The output mode *)

Lemma mode_blind_pure {A} (o : outcome A) : mode_blind (fun s => (o, s)).
Proof. intros s b. reflexivity. Qed.

Lemma mode_blind_ret {A} (a : A) : mode_blind (ret a).
Proof. apply mode_blind_pure. Qed.

Lemma mode_blind_raise {A} e : mode_blind (@raise A e).
Proof. apply mode_blind_pure. Qed.

Lemma mode_blind_lift {A} (o : outcome A) : mode_blind (lift o).
Proof. apply mode_blind_pure. Qed.

Lemma mode_blind_unawaited {A} (c : coro A) : mode_blind (unawaited c).
Proof. apply mode_blind_pure. Qed.

Lemma mode_blind_local name v : mode_blind (local name v).
Proof. destruct v; apply mode_blind_pure. Qed.

Lemma mode_blind_response_json r : mode_blind (response_json r).
Proof. unfold response_json. destruct (body r); apply mode_blind_pure. Qed.

Lemma mode_blind_self_username : mode_blind self_username.
Proof. intros s b. reflexivity. Qed.

Lemma mode_blind_self_password : mode_blind self_password.
Proof. intros s b. reflexivity. Qed.

Lemma mode_blind_self_token : mode_blind self_token.
Proof. intros s b. reflexivity. Qed.

Lemma mode_blind_set_token t : mode_blind (set_token t).
Proof. intros s b. reflexivity. Qed.

Lemma mode_blind_record_call r : mode_blind (record_call r).
Proof. intros s b. reflexivity. Qed.

Lemma mode_blind_bind {A B} (c : coro A) (k : A -> coro B) :
  mode_blind c -> (forall a, mode_blind (k a)) -> mode_blind (bind c k).
Proof.
  intros Hc Hk s b. unfold bind. rewrite Hc.
  destruct (c s) as [[a|e] s1]; cbn [fst snd]; [apply Hk|reflexivity].
Qed.

Create HintDb mode.
#[local] Hint Resolve mode_blind_ret mode_blind_raise mode_blind_lift mode_blind_unawaited
  mode_blind_local mode_blind_response_json mode_blind_self_username
  mode_blind_self_password mode_blind_self_token mode_blind_set_token
  mode_blind_record_call : mode.

Ltac mode_step :=
  match goal with
  | |- mode_blind (bind _ _) => apply mode_blind_bind; [|intro]
  | |- mode_blind (await _) => unfold await
  | |- mode_blind (session_post _ _) => unfold session_post
  | |- mode_blind (session_get _ _) => unfold session_get
  | |- mode_blind (let _ := _ in _) => cbv zeta
  | |- mode_blind (if ?b then _ else _) => destruct b
  | |- mode_blind (match ?x with _ => _ end) => destruct x
  | |- mode_blind _ => solve [auto with mode]
  end.

Lemma mode_blind_get_credentials : mode_blind get_credentials.
Proof. unfold get_credentials. repeat mode_step. Qed.

Lemma mode_blind_login : mode_blind login.
Proof. unfold login. repeat mode_step. Qed.

Lemma mode_blind_get_data endpoint : mode_blind (get_data endpoint).
Proof. unfold get_data, refresh_token. repeat mode_step. Qed.

#[local] Hint Resolve mode_blind_get_credentials mode_blind_login mode_blind_get_data : mode.

Lemma mode_bound_blind {A} (c : coro A) : mode_blind c -> mode_bound c.
Proof. intros H s b. rewrite H. auto. Qed.

Lemma mode_bound_bind {A B} (c : coro A) (k : A -> coro B) :
  mode_blind c -> (forall a, mode_bound (k a)) -> mode_bound (bind c k).
Proof.
  intros Hc Hk s b. unfold bind. rewrite Hc.
  destruct (c s) as [[a|e] s1]; cbn [fst snd]; [apply Hk|auto].
Qed.

Lemma mode_bound_dump (x y : pyval) :
  mode_bound (return_json <- self_return_json ;; if return_json then ret x else ret y).
Proof.
  intros s b. unfold bind, self_return_json. cbn [return_json with_json].
  destruct b, (return_json s); cbn; auto.
Qed.

Ltac mode_bound_step :=
  match goal with
  | |- mode_bound (bind self_return_json _) => apply mode_bound_dump
  | |- mode_bound (bind _ _) => apply mode_bound_bind; [repeat mode_step|intro]
  | |- mode_bound (ret _) => apply mode_bound_blind, mode_blind_ret
  | |- mode_bound (let _ := _ in _) => cbv zeta
  | |- mode_bound (if ?b then _ else _) => destruct b
  | |- mode_bound (match ?x with _ => _ end) => destruct x
  end.

Lemma mode_bound_fetch_solar_data : mode_bound fetch_solar_data.
Proof.
  unfold fetch_solar_data. repeat mode_bound_step.
Qed.

(** X10.  The output mode changes at most the value that
    [fetch_solar_data] returns: on the same instance in the other mode, and
    the same service, the fetch makes the same requests, leaves the same
    token, and raises the same error or none. *)
Theorem fetch_solar_data_mode_changes_only_the_value (s : TalentSolarMonitor) (b : bool) :
  recorded (after fetch_solar_data (with_json s b)) = recorded (after fetch_solar_data s) /\
  token (after fetch_solar_data (with_json s b)) = token (after fetch_solar_data s) /\
  raised_of (run fetch_solar_data (with_json s b)) = raised_of (run fetch_solar_data s).
Proof.
  unfold recorded, after, run.
  destruct (mode_bound_fetch_solar_data s b) as [-> ->]. auto.
Qed.

(** ** [main] *)

Lemma main_eq environ network u p json :
  let r := fetch_solar_data (__init__ environ u p (mkSession network []) json) in
  main environ network u p json =
    {| main_outcome :=
         match fst r with Returned _ => Returned tt | Raised e => Raised e end;
       main_info :=
         match fst r with
         | Returned result =>
             if truthy result then ["Solar data received: " ++ py_str result] else []
         | Raised _ => []
         end;
       main_requests := recorded (snd r) |}.
Proof.
  cbv zeta. unfold main. now destruct (fetch_solar_data _) as [[v|e] s'].
Qed.

Lemma or_else_given a b : or_else a b = if given a then a else b.
Proof. now destruct a as [[|? ?]|]. Qed.

Lemma falsy_or_else a b : falsy_str (or_else a b) = negb (given a || given b).
Proof. now destruct a as [[|? ?]|]. Qed.

(** X11.  Without usable credentials, neither as arguments nor in the
    environment, [main] ends in the [ValueError] of [get_credentials]: no
    request is made on the session and nothing is logged at level INFO. *)
Theorem main_without_credentials
    (environ : string -> option string) (network : list request -> request -> response)
    (u p : option string) (json : bool) :
  (given u || given (environ "PYTALENT_USERNAME"))
  && (given p || given (environ "PYTALENT_PASSWORD")) = false ->
  main environ network u p json =
    {| main_outcome := Raised credentials_error; main_info := []; main_requests := [] |}.
Proof.
  intro H. rewrite main_eq. cbv zeta.
  unfold fetch_solar_data. rewrite bind_eq, get_credentials_eq.
  cbn [__init__ username password].
  assert (E : falsy_str (or_else u (environ "PYTALENT_USERNAME"))
              || falsy_str (or_else p (environ "PYTALENT_PASSWORD")) = true).
  { rewrite !falsy_or_else, <- negb_andb, H. reflexivity. }
  rewrite E. reflexivity.
Qed.

Lemma main_without_credentials_witness :
  main (fun _ => None) (Mock.routes (Mock.service Mock.two_panels))
       (Some "alice") (Some EmptyString) true
  = {| main_outcome := Raised credentials_error; main_info := []; main_requests := [] |}.
Proof.
  exact (main_without_credentials (fun _ => None)
           (Mock.routes (Mock.service Mock.two_panels))
           (Some "alice") (Some EmptyString) true eq_refl).
Defined.

(** X12.  With credentials, the first request of [main] is the POST to
    [BASE_URL/login] of the credentials as the constructor resolves them:
    each is the argument when that is a non-empty string, the value of the
    environment variable otherwise.  All later requests are GETs. *)
Theorem main_posts_resolved_credentials
    (environ : string -> option string) (network : list request -> request -> response)
    (u p : option string) (json : bool) :
  let user := if given u then u else environ "PYTALENT_USERNAME" in
  let pass := if given p then p else environ "PYTALENT_PASSWORD" in
  given user = true ->
  given pass = true ->
  exists gets,
    main_requests (main environ network u p json)
    = POST (BASE_URL ++ "/login")
           (PyDict [("username", opt_str user); ("password", opt_str pass)]) :: gets /\
    forallb is_get gets = true.
Proof.
  cbv zeta. intros Hu Hp. rewrite main_eq. cbv zeta. cbn [main_requests].
  destruct (fetch_after_credentials (__init__ environ u p (mkSession network []) json))
    as (gets & E & Hg & _).
  - cbn [__init__ username]. now rewrite or_else_given.
  - cbn [__init__ password]. now rewrite or_else_given.
  - exists gets. split; [|assumption].
    pose proof (login_recorded (__init__ environ u p (mkSession network []) json)) as Hl.
    unfold after, recorded in *. rewrite E.
    cbn [with_calls session calls]. rewrite Hl. unfold login_request.
    cbn [__init__ username password session calls app].
    now rewrite !or_else_given.
Qed.

Lemma main_posts_resolved_credentials_witness :
  exists gets,
    main_requests
      (main (fun k => if k =? "PYTALENT_PASSWORD" then Some "secret" else None)
            (Mock.routes (Mock.service Mock.two_panels))
            (Some "alice") (Some EmptyString) true)
    = POST (BASE_URL ++ "/login")
           (PyDict [("username", PyStr "alice"); ("password", PyStr "secret")]) :: gets /\
    forallb is_get gets = true.
Proof.
  exact (main_posts_resolved_credentials
           (fun k => if k =? "PYTALENT_PASSWORD" then Some "secret" else None)
           (Mock.routes (Mock.service Mock.two_panels))
           (Some "alice") (Some EmptyString) true eq_refl eq_refl).
Defined.

Lemma report_text_truthy d :
  map fst d = report_keys -> truthy (PyStr (json_dumps (Some 4) (PyDict d))) = true.
Proof.
  destruct d as [|kv d]; [discriminate|]. reflexivity.
Qed.

(** X13.  [main] hands the logger at most one INFO record.  In log mode it
    hands none, whatever the service answers.  In JSON mode it hands one
    exactly when the fetch returns a text, and the record is
    [Solar data received: ] followed by that text; when the fetch returns
    [None] or raises, there is none. *)
Theorem main_info_record
    (environ : string -> option string) (network : list request -> request -> response)
    (u p : option string) :
  main_info (main environ network u p false) = [] /\
  main_info (main environ network u p true) =
    match run fetch_solar_data (__init__ environ u p (mkSession network []) true) with
    | Returned (PyStr text) => ["Solar data received: " ++ text]
    | _ => []
    end.
Proof.
  split; rewrite main_eq; cbv zeta; cbn [main_info]; unfold run;
    match goal with
    | |- context [fetch_solar_data ?s] =>
        pose proof (reports_fetch_solar_data s) as H;
        destruct (fetch_solar_data s) as [[v|e] s']; cbn [fst] in *; [|reflexivity];
        destruct (H v eq_refl) as [-> | (Hj & d & Hd & ->)]; try reflexivity
    end.
  - discriminate Hj.
  - rewrite (report_text_truthy d Hd). reflexivity.
Qed.

(** ** Where a fetch fails *)

Lemma get_data_answered s s' endpoint r :
  respond (session s') = respond (session s) ->
  answers s endpoint (token s') r ->
  get_data endpoint s'
  = (data_of r, with_calls s' (repeat (get_request endpoint (token s')) (tries r))).
Proof.
  intros Hr Hs. rewrite get_data_eq. cbv zeta. rewrite Hr, !Hs. unfold tries.
  destruct (status r =? 401)%Z; reflexivity.
Qed.

Lemma no_data_falsy r :
  no_data r = true -> exists d, data_of r = Returned d /\ truthy d = false.
Proof.
  unfold no_data. destruct (data_of r) as [d|e]; [|discriminate].
  intro H. exists d. split; [reflexivity|]. now apply negb_true_iff.
Qed.

Ltac settle :=
  cbn [with_token with_calls token session calls respond username password return_json];
  cbv beta iota.

(** The next [get_data] is served by the hypothesis [H]. *)
Ltac serve s H :=
  match goal with
  | |- context [get_data ?e ?s'] => rewrite (get_data_served s s' e _ eq_refl H)
  end;
  settle.

(** The next [get_data] obtains nothing, by the hypotheses [H] and [Hno]. *)
Ltac starve s H Hno :=
  match goal with
  | |- context [get_data ?e ?s'] => rewrite (get_data_answered s s' e _ eq_refl H)
  end;
  settle;
  let d := fresh "d" in
  let Hd := fresh "Hd" in
  let Hf := fresh "Hf" in
  destruct (no_data_falsy _ Hno) as (d & Hd & Hf);
  rewrite Hd; cbv beta iota; rewrite ?Hf; cbv beta iota.

Ltac take H :=
  rewrite ?(field_truthy _ _ _ H), ?(field_contains _ _ _ H), ?(field_getitem _ _ _ H);
  cbv beta iota.

Ltac first_row :=
  cbn [len List.length Z.of_nat Z.ltb Z.compare]; cbv beta iota;
  rewrite ?getitem_first.

Ltac done_with_calls :=
  cbv beta iota delta [raise];
  cbn [fst snd session calls token with_calls with_token];
  rewrite <- ?app_assoc; repeat split; reflexivity.

Lemma login_raised s e :
  fst (login s) = Raised e -> token (snd (login s)) = token s.
Proof.
  rewrite login_eq. cbv zeta.
  destruct (body _) as [v|]; [|reflexivity].
  destruct (contains "token" v) as [[|]|e']; try reflexivity.
  destruct (getitem v (PyStr "token")); [discriminate|reflexivity].
Qed.

(** X17.  When the login raises, [fetch_solar_data] raises the same error
    (for a refused login, [AuthenticationError]); the POST of the login is
    the only request made, and the held token is the one held before. *)
Theorem fetch_solar_data_login_failure (s : TalentSolarMonitor) (e : exn) :
  given (username s) = true ->
  given (password s) = true ->
  run login s = Raised e ->
  run fetch_solar_data s = Raised e /\
  recorded (after fetch_solar_data s) = (recorded s ++ [login_request s])%list /\
  token (after fetch_solar_data s) = token s.
Proof.
  intros Hu Hp He.
  pose proof (login_recorded s) as Hl.
  pose proof (login_raised s e) as Ht.
  unfold run, after, recorded in *. unfold fetch_solar_data.
  rewrite bind_eq, get_credentials_eq.
  unfold given in Hu, Hp. unfold falsy_str. rewrite Hu, Hp. cbn [negb orb].
  rewrite bind_eq. unfold await.
  destruct (login s) as [[[]|e'] s1]; cbn [fst snd] in *; [discriminate|].
  injection He as ->. auto.
Qed.

Section Faults.

Variable s : TalentSolarMonitor.

(** The instance has credentials and the service accepts them. *)
Variables u p : string.
Hypothesis Husername : username s = Some u.
Hypothesis Hu : u <> EmptyString.
Hypothesis Hpassword : password s = Some p.
Hypothesis Hp : p <> EmptyString.

Variables login_body t : pyval.
Hypothesis Hlogin :
  body (respond (session s) (recorded s) (login_request s)) = Some login_body.
Hypothesis Htoken : field login_body "token" = Some t.

Ltac logged_in :=
  unfold run, after, recorded; unfold fetch_solar_data;
  rewrite (fetch_after_login s u p Husername Hu Hpassword Hp login_body t Hlogin Htoken);
  cbv beta iota delta [bind lift ret local await].

(** X18.  When the station list yields nothing, because the service
    answers its GET with a status other than 200 (a 401 on both tries
    included) or with an empty body, [fetch_solar_data] returns [None] and
    raises nothing: the failure looks like an account without stations.  The
    requests are the login and the GET of the station list, sent twice when
    the status is 401. *)
Theorem fetch_solar_data_station_list_unavailable (r : response) :
  answers s "system/station/list" t r ->
  no_data r = true ->
  run fetch_solar_data s = Returned PyNone /\
  recorded (after fetch_solar_data s)
  = (recorded s ++ login_request s
       :: repeat (get_request "system/station/list" t) (tries r))%list.
Proof.
  intros Hr Hno. logged_in. starve s Hr Hno. done_with_calls.
Qed.

(** The station list is served and has a first row. *)
Variables stations row : pyval.
Variable more_rows : list pyval.
Hypothesis Hstations : serves s "system/station/list" t stations.
Hypothesis Hrows : field stations "rows" = Some (PyList (row :: more_rows)).

(** X19.  When the first row of the station list is an object that lacks
    one of [status], [stationName] and [powerStationGuid], the fetch raises
    [KeyError] with the first of them that is missing, and makes no request
    after the GET of the station list. *)
Theorem fetch_solar_data_station_field_missing (d : list (string * pyval)) (k : string) :
  row = PyDict d ->
  first_missing d = Some k ->
  run fetch_solar_data s = Raised (KeyError (PyStr k)) /\
  recorded (after fetch_solar_data s)
  = (recorded s ++ [login_request s; get_request "system/station/list" t])%list.
Proof.
  intros Hrow Hk. logged_in. serve s Hstations. take Hrows. first_row.
  subst row. unfold first_missing in Hk. cbn [find] in Hk. cbn [getitem].
  destruct (dict_get d "status");
    [destruct (dict_get d "stationName");
       [destruct (dict_get d "powerStationGuid"); [discriminate Hk|]|]|];
    injection Hk as <-; done_with_calls.
Qed.

Variables status stationName powerStationGuid : pyval.
Hypothesis Hstatus : field row "status" = Some status.
Hypothesis HstationName : field row "stationName" = Some stationName.
Hypothesis HpowerStationGuid : field row "powerStationGuid" = Some powerStationGuid.

Ltac station_read :=
  logged_in; serve s Hstations; take Hrows; first_row;
  take Hstatus; take HstationName; take HpowerStationGuid;
  fold (station_detail_endpoint powerStationGuid).

Section DetailMissing.

(** The station detail yields nothing; the inverter stages are served. *)
Variable r : response.
Hypothesis Hdetail : answers s (station_detail_endpoint powerStationGuid) t r.
Hypothesis Hno : no_data r = true.

Variables inverters inverter deviceGuid : pyval.
Variable more_inverters : list pyval.
Hypothesis Hinverters : serves s "tools/device/selectDeviceInverter" t inverters.
Hypothesis Hinverter : field inverters "rows" = Some (PyList (inverter :: more_inverters)).
Hypothesis HdeviceGuid : field inverter "deviceGuid" = Some deviceGuid.

Variables info info_data pv1 pv2 : pyval.
Variable more_pv : list pyval.
Variables pv1Voltage pv1Current pv1Power pv2Voltage pv2Current pv2Power : pyval.
Hypothesis Hinfo : serves s (inverter_detail_endpoint deviceGuid) t info.
Hypothesis Hinfo_data : field info "data" = Some info_data.
Hypothesis Hpv : field info_data "pv" = Some (PyList (pv1 :: pv2 :: more_pv)).
Hypothesis Hv1 : field pv1 "voltage" = Some pv1Voltage.
Hypothesis Hc1 : field pv1 "current" = Some pv1Current.
Hypothesis Hp1 : field pv1 "power" = Some pv1Power.
Hypothesis Hv2 : field pv2 "voltage" = Some pv2Voltage.
Hypothesis Hc2 : field pv2 "current" = Some pv2Current.
Hypothesis Hp2 : field pv2 "power" = Some pv2Power.

(** X20.  When the station detail yields nothing while the other stages
    are served, the fetch goes on to request the inverter list and the
    inverter detail, and then raises [UnboundLocalError] for
    [totalActivePower] when it builds the report: no partial report, and no
    [None]. *)
Theorem fetch_solar_data_without_station_detail :
  run fetch_solar_data s = Raised (UnboundLocalError "totalActivePower") /\
  recorded (after fetch_solar_data s)
  = (recorded s
     ++ [login_request s; get_request "system/station/list" t]
     ++ repeat (get_request (station_detail_endpoint powerStationGuid) t) (tries r)
     ++ [get_request "tools/device/selectDeviceInverter" t;
         get_request (inverter_detail_endpoint deviceGuid) t])%list.
Proof.
  station_read. starve s Hdetail Hno.
  serve s Hinverters. take Hinverter. first_row. take HdeviceGuid.
  fold (inverter_detail_endpoint deviceGuid).
  serve s Hinfo. take Hinfo_data. take Hpv.
  rewrite !getitem_first, !getitem_second.
  take Hv1. take Hc1. take Hp1. take Hv2. take Hc2. take Hp2.
  done_with_calls.
Qed.

End DetailMissing.

(** The station detail is served and has the four energy fields. *)
Variables detail power_data totalActivePower dayEnergy monthEnergy yearEnergy : pyval.
Hypothesis Hdetail : serves s (station_detail_endpoint powerStationGuid) t detail.
Hypothesis Hpower_data : field detail "data" = Some power_data.
Hypothesis HtotalActivePower : field power_data "totalActivePower" = Some totalActivePower.
Hypothesis HdayEnergy : field power_data "dayEnergy" = Some dayEnergy.
Hypothesis HmonthEnergy : field power_data "monthEnergy" = Some monthEnergy.
Hypothesis HyearEnergy : field power_data "yearEnergy" = Some yearEnergy.

Ltac detail_read :=
  station_read; serve s Hdetail; take Hpower_data; take HtotalActivePower;
  take HdayEnergy; take HmonthEnergy; take HyearEnergy.

(** X21.  When the inverter list yields nothing, the fetch raises
    [UnboundLocalError] for [deviceGuid] while it builds the next URL: the
    inverter detail is never requested. *)
Theorem fetch_solar_data_without_inverter_list (r : response) :
  answers s "tools/device/selectDeviceInverter" t r ->
  no_data r = true ->
  run fetch_solar_data s = Raised (UnboundLocalError "deviceGuid") /\
  recorded (after fetch_solar_data s)
  = (recorded s
     ++ [login_request s; get_request "system/station/list" t;
         get_request (station_detail_endpoint powerStationGuid) t]
     ++ repeat (get_request "tools/device/selectDeviceInverter" t) (tries r))%list.
Proof.
  intros Hr Hno. detail_read. starve s Hr Hno. done_with_calls.
Qed.

(** X22.  An inverter list whose [rows] is empty is not treated like an
    empty station list: the fetch raises [IndexError], and the inverter
    detail is never requested. *)
Theorem fetch_solar_data_no_inverters (inverters : pyval) :
  serves s "tools/device/selectDeviceInverter" t inverters ->
  field inverters "rows" = Some (PyList []) ->
  run fetch_solar_data s = Raised IndexError /\
  recorded (after fetch_solar_data s)
  = (recorded s
     ++ [login_request s; get_request "system/station/list" t;
         get_request (station_detail_endpoint powerStationGuid) t;
         get_request "tools/device/selectDeviceInverter" t])%list.
Proof.
  intros Hinverters Hempty. detail_read. serve s Hinverters. take Hempty.
  change (getitem (PyList []) (PyInt 0)) with (@Raised pyval IndexError).
  done_with_calls.
Qed.

(** The inverter list is served and has a first row with [deviceGuid]. *)
Variables inverters inverter deviceGuid : pyval.
Variable more_inverters : list pyval.
Hypothesis Hinverters : serves s "tools/device/selectDeviceInverter" t inverters.
Hypothesis Hinverter : field inverters "rows" = Some (PyList (inverter :: more_inverters)).
Hypothesis HdeviceGuid : field inverter "deviceGuid" = Some deviceGuid.

(** X23.  When the inverter detail yields nothing, the fetch raises
    [UnboundLocalError] for [pv1Voltage] after all its requests: the station
    data it has read is not reported. *)
Theorem fetch_solar_data_without_inverter_detail (r : response) :
  answers s (inverter_detail_endpoint deviceGuid) t r ->
  no_data r = true ->
  run fetch_solar_data s = Raised (UnboundLocalError "pv1Voltage") /\
  recorded (after fetch_solar_data s)
  = (recorded s
     ++ [login_request s; get_request "system/station/list" t;
         get_request (station_detail_endpoint powerStationGuid) t;
         get_request "tools/device/selectDeviceInverter" t]
     ++ repeat (get_request (inverter_detail_endpoint deviceGuid) t) (tries r))%list.
Proof.
  intros Hr Hno. detail_read.
  serve s Hinverters. take Hinverter. first_row. take HdeviceGuid.
  fold (inverter_detail_endpoint deviceGuid).
  starve s Hr Hno. done_with_calls.
Qed.

End Faults.

(** ** The further properties on the sample services *)

Lemma fetch_solar_data_requests_witness :
  recorded (after fetch_solar_data Mock.client)
  = [ login_request Mock.client;
      get_request "system/station/list" (PyStr "tok-1");
      get_request (station_detail_endpoint (PyStr "S-17")) (PyStr "tok-1");
      get_request "tools/device/selectDeviceInverter" (PyStr "tok-1");
      get_request (inverter_detail_endpoint (PyStr "D-4")) (PyStr "tok-1") ] /\
  token (after fetch_solar_data Mock.client) = PyStr "tok-1".
Proof.
  refine (fetch_solar_data_requests Mock.client
            "alice" "secret" eq_refl _ eq_refl _
            Mock.login_body (PyStr "tok-1") eq_refl eq_refl
            Mock.station_list _ (PyStr "ready") (PyStr "Roof") (PyStr "S-17") []
            (fun _ => eq_refl) eq_refl eq_refl eq_refl eq_refl
            Mock.station_detail _ (PyFloat "512.5") (PyFloat "1.2") (PyFloat "30.5") (PyInt 400)
            (fun _ => eq_refl) eq_refl eq_refl eq_refl eq_refl eq_refl
            Mock.inverter_list _ (PyStr "D-4") []
            (fun _ => eq_refl) eq_refl eq_refl
            (Mock.inverter_detail Mock.two_panels)
            (fun _ => eq_refl));
    discriminate.
Defined.

Lemma fetch_solar_data_reports_first_entries_witness :
  run fetch_solar_data Sample.client_three_panels
  = Returned (PyStr (json_dumps (Some 4) (PyDict Mock.sample_report))).
Proof.
  refine (fetch_solar_data_reports_first_entries Sample.client_three_panels
            "alice" "secret" eq_refl _ eq_refl _
            Mock.login_body (PyStr "tok-1") eq_refl eq_refl
            Mock.station_list _ (PyStr "ready") (PyStr "Roof") (PyStr "S-17") []
            (fun _ => eq_refl) eq_refl eq_refl eq_refl eq_refl
            Mock.station_detail _ (PyFloat "512.5") (PyFloat "1.2") (PyFloat "30.5") (PyInt 400)
            (fun _ => eq_refl) eq_refl eq_refl eq_refl eq_refl eq_refl
            Mock.inverter_list _ (PyStr "D-4") []
            (fun _ => eq_refl) eq_refl eq_refl
            (Mock.inverter_detail Sample.three_panels) _ Sample.three_panels
            (fun _ => eq_refl) eq_refl eq_refl
            (Mock.panel "35.1" "7.2" "252.7") (Mock.panel "34.8" "7.4" "257.5")
            (PyFloat "35.1") (PyFloat "7.2") (PyFloat "252.7")
            (PyFloat "34.8") (PyFloat "7.4") (PyFloat "257.5")
            [Mock.panel "33.9" "7.0" "237.3"]
            eq_refl eq_refl eq_refl eq_refl eq_refl eq_refl eq_refl eq_refl);
    discriminate.
Defined.

Lemma fetch_solar_data_log_mode_witness :
  run fetch_solar_data Sample.client_log_mode = Returned PyNone.
Proof.
  refine (fetch_solar_data_log_mode Sample.client_log_mode
            "alice" "secret" eq_refl _ eq_refl _
            Mock.login_body (PyStr "tok-1") eq_refl eq_refl
            Mock.station_list _ (PyStr "ready") (PyStr "Roof") (PyStr "S-17") []
            (fun _ => eq_refl) eq_refl eq_refl eq_refl eq_refl
            Mock.station_detail _ (PyFloat "512.5") (PyFloat "1.2") (PyFloat "30.5") (PyInt 400)
            (fun _ => eq_refl) eq_refl eq_refl eq_refl eq_refl eq_refl
            Mock.inverter_list _ (PyStr "D-4") []
            (fun _ => eq_refl) eq_refl eq_refl
            (Mock.inverter_detail Mock.two_panels) _ Mock.two_panels
            (fun _ => eq_refl) eq_refl eq_refl
            (Mock.panel "35.1" "7.2" "252.7") (Mock.panel "34.8" "7.4" "257.5")
            (PyFloat "35.1") (PyFloat "7.2") (PyFloat "252.7")
            (PyFloat "34.8") (PyFloat "7.4") (PyFloat "257.5")
            []
            eq_refl eq_refl eq_refl eq_refl eq_refl eq_refl eq_refl eq_refl);
    discriminate.
Defined.

Lemma fetch_solar_data_login_failure_witness :
  run fetch_solar_data Sample.client_refused
  = Raised (AuthenticationError "Authentication failed") /\
  recorded (after fetch_solar_data Sample.client_refused)
  = [login_request Sample.client_refused] /\
  token (after fetch_solar_data Sample.client_refused) = PyNone.
Proof.
  exact (fetch_solar_data_login_failure Sample.client_refused
           (AuthenticationError "Authentication failed") eq_refl eq_refl eq_refl).
Defined.

Lemma fetch_solar_data_station_list_unavailable_witness :
  run fetch_solar_data Sample.client_never_authorized = Returned PyNone /\
  recorded (after fetch_solar_data Sample.client_never_authorized)
  = [ login_request Sample.client_never_authorized;
      get_request "system/station/list" (PyStr "tok-1");
      get_request "system/station/list" (PyStr "tok-1") ].
Proof.
  refine (fetch_solar_data_station_list_unavailable Sample.client_never_authorized
            "alice" "secret" eq_refl _ eq_refl _
            Mock.login_body (PyStr "tok-1") eq_refl eq_refl
            Mock.unauthorized (fun _ => eq_refl) eq_refl);
    discriminate.
Defined.

Lemma fetch_solar_data_station_field_missing_witness :
  run fetch_solar_data Sample.client_nameless_station
  = Raised (KeyError (PyStr "stationName")) /\
  recorded (after fetch_solar_data Sample.client_nameless_station)
  = [ login_request Sample.client_nameless_station;
      get_request "system/station/list" (PyStr "tok-1") ].
Proof.
  refine (fetch_solar_data_station_field_missing Sample.client_nameless_station
            "alice" "secret" eq_refl _ eq_refl _
            Mock.login_body (PyStr "tok-1") eq_refl eq_refl
            (PyDict [("rows", PyList [PyDict Sample.nameless_station])])
            (PyDict Sample.nameless_station) []
            (fun _ => eq_refl) eq_refl
            Sample.nameless_station "stationName" eq_refl eq_refl);
    discriminate.
Defined.

Lemma fetch_solar_data_without_station_detail_witness :
  run fetch_solar_data Mock.client_without_detail
  = Raised (UnboundLocalError "totalActivePower") /\
  recorded (after fetch_solar_data Mock.client_without_detail)
  = [ login_request Mock.client_without_detail;
      get_request "system/station/list" (PyStr "tok-1");
      get_request (station_detail_endpoint (PyStr "S-17")) (PyStr "tok-1");
      get_request "tools/device/selectDeviceInverter" (PyStr "tok-1");
      get_request (inverter_detail_endpoint (PyStr "D-4")) (PyStr "tok-1") ].
Proof.
  refine (fetch_solar_data_without_station_detail Mock.client_without_detail
            "alice" "secret" eq_refl _ eq_refl _
            Mock.login_body (PyStr "tok-1") eq_refl eq_refl
            Mock.station_list _ [] (fun _ => eq_refl) eq_refl
            (PyStr "ready") (PyStr "Roof") (PyStr "S-17") eq_refl eq_refl eq_refl
            Mock.server_error (fun _ => eq_refl) eq_refl
            Mock.inverter_list _ (PyStr "D-4") []
            (fun _ => eq_refl) eq_refl eq_refl
            (Mock.inverter_detail Mock.two_panels) _
            (Mock.panel "35.1" "7.2" "252.7") (Mock.panel "34.8" "7.4" "257.5") []
            (PyFloat "35.1") (PyFloat "7.2") (PyFloat "252.7")
            (PyFloat "34.8") (PyFloat "7.4") (PyFloat "257.5")
            (fun _ => eq_refl) eq_refl eq_refl
            eq_refl eq_refl eq_refl eq_refl eq_refl eq_refl);
    discriminate.
Defined.

Lemma fetch_solar_data_without_inverter_list_witness :
  run fetch_solar_data Mock.client_without_inverters
  = Raised (UnboundLocalError "deviceGuid") /\
  recorded (after fetch_solar_data Mock.client_without_inverters)
  = [ login_request Mock.client_without_inverters;
      get_request "system/station/list" (PyStr "tok-1");
      get_request (station_detail_endpoint (PyStr "S-17")) (PyStr "tok-1");
      get_request "tools/device/selectDeviceInverter" (PyStr "tok-1") ].
Proof.
  refine (fetch_solar_data_without_inverter_list Mock.client_without_inverters
            "alice" "secret" eq_refl _ eq_refl _
            Mock.login_body (PyStr "tok-1") eq_refl eq_refl
            Mock.station_list _ [] (fun _ => eq_refl) eq_refl
            (PyStr "ready") (PyStr "Roof") (PyStr "S-17") eq_refl eq_refl eq_refl
            Mock.station_detail _ (PyFloat "512.5") (PyFloat "1.2") (PyFloat "30.5") (PyInt 400)
            (fun _ => eq_refl) eq_refl eq_refl eq_refl eq_refl eq_refl
            Mock.server_error (fun _ => eq_refl) eq_refl);
    discriminate.
Defined.

Lemma fetch_solar_data_no_inverters_witness :
  run fetch_solar_data Sample.client_no_inverter_rows = Raised IndexError /\
  recorded (after fetch_solar_data Sample.client_no_inverter_rows)
  = [ login_request Sample.client_no_inverter_rows;
      get_request "system/station/list" (PyStr "tok-1");
      get_request (station_detail_endpoint (PyStr "S-17")) (PyStr "tok-1");
      get_request "tools/device/selectDeviceInverter" (PyStr "tok-1") ].
Proof.
  refine (fetch_solar_data_no_inverters Sample.client_no_inverter_rows
            "alice" "secret" eq_refl _ eq_refl _
            Mock.login_body (PyStr "tok-1") eq_refl eq_refl
            Mock.station_list _ [] (fun _ => eq_refl) eq_refl
            (PyStr "ready") (PyStr "Roof") (PyStr "S-17") eq_refl eq_refl eq_refl
            Mock.station_detail _ (PyFloat "512.5") (PyFloat "1.2") (PyFloat "30.5") (PyInt 400)
            (fun _ => eq_refl) eq_refl eq_refl eq_refl eq_refl eq_refl
            (PyDict [("rows", PyList [])]) (fun _ => eq_refl) eq_refl);
    discriminate.
Defined.

Lemma fetch_solar_data_without_inverter_detail_witness :
  run fetch_solar_data Sample.client_without_inverter_detail
  = Raised (UnboundLocalError "pv1Voltage") /\
  recorded (after fetch_solar_data Sample.client_without_inverter_detail)
  = [ login_request Sample.client_without_inverter_detail;
      get_request "system/station/list" (PyStr "tok-1");
      get_request (station_detail_endpoint (PyStr "S-17")) (PyStr "tok-1");
      get_request "tools/device/selectDeviceInverter" (PyStr "tok-1");
      get_request (inverter_detail_endpoint (PyStr "D-4")) (PyStr "tok-1") ].
Proof.
  refine (fetch_solar_data_without_inverter_detail Sample.client_without_inverter_detail
            "alice" "secret" eq_refl _ eq_refl _
            Mock.login_body (PyStr "tok-1") eq_refl eq_refl
            Mock.station_list _ [] (fun _ => eq_refl) eq_refl
            (PyStr "ready") (PyStr "Roof") (PyStr "S-17") eq_refl eq_refl eq_refl
            Mock.station_detail _ (PyFloat "512.5") (PyFloat "1.2") (PyFloat "30.5") (PyInt 400)
            (fun _ => eq_refl) eq_refl eq_refl eq_refl eq_refl eq_refl
            Mock.inverter_list _ (PyStr "D-4") []
            (fun _ => eq_refl) eq_refl eq_refl
            Mock.server_error (fun _ => eq_refl) eq_refl);
    discriminate.
Defined.
